(** * Workout & Nutrition Tracker API: a shallow embedding of [main.py] and
    [schemas.py], and the properties of its validation, normalisation and
    query-building logic.

    Python values are modelled by the inductive [value], dictionaries by
    stdpp's [gmap string value], floating-point numbers by the kernel's
    binary64 floats, exceptions by the result type [result]. *)

From Stdlib Require Import ZArith String Ascii List Bool Floats Lia.
From stdpp Require Import base option list gmap strings pretty fin_maps.

#[local] Set Warnings "-register-all,-clear-no-such-hyp".
Local Open Scope string_scope.

(** ** Python values *)

(** The values that travel through the service: JSON payloads, BSON documents
    and the dictionaries the handlers build. *)
Inductive value :=
| VNone
| VBool (b : bool)
| VInt (z : Z)
| VFloat (f : float)
| VStr (s : string)
| VObjectId (oid : N)
| VList (l : list value)
| VDict (d : gmap string value).

Abbreviation dict := (gmap string value).

(** Exceptions a handler can meet. [StoreError] stands for whatever the
    document store raises. *)
Inductive exn :=
| AttributeError
| TypeError
| ValueError
| OverflowError
| NotImplementedError
| RequestException
| StoreError.

Inductive result (A : Type) :=
| Return (a : A)
| Raise (e : exn).

Arguments Return {A} a.
Arguments Raise {A} e.

#[global] Instance result_bind : MBind result := fun A B k m =>
  match m with
  | Return a => k a
  | Raise e => Raise e
  end.

#[global] Instance result_fmap : FMap result := fun A B f m =>
  match m with
  | Return a => Return (f a)
  | Raise e => Raise e
  end.

(** A [for] loop that builds a list and stops at the first exception. *)
Fixpoint for_each {A B : Type} (f : A -> result B) (l : list A) : result (list B) :=
  match l with
  | [] => Return []
  | a :: l' => b ← f a; bs ← for_each f l'; Return (b :: bs)
  end.

(** Truth value testing, as [if x], [not x] and [x or y] perform it. *)
Definition truthy (v : value) : bool :=
  match v with
  | VNone => false
  | VBool b => b
  | VInt z => negb (z =? 0)%Z
  | VFloat f => negb (PrimFloat.eqb f 0%float)
  | VStr s => negb (String.eqb s "")
  | VObjectId _ => true
  | VList l => negb (bool_decide (l = []))
  | VDict d => negb (bool_decide (d = ∅))
  end.

(** [a or b] *)
Definition py_or (a b : value) : value := if truthy a then a else b.

(** [x.get(k, dflt)]: only dictionaries have the method. *)
Definition get (x : value) (k : string) (dflt : value) : result value :=
  match x with
  | VDict d => Return (default dflt (d !! k))
  | _ => Raise AttributeError
  end.

(** [for p in xs]: the elements of a list, the keys of a dictionary, the
    characters of a string; anything else is not iterable. *)
Definition iter (xs : value) : result (list value) :=
  match xs with
  | VList l => Return l
  | VDict d => Return (VStr <$> (map_to_list d).*1)
  | VStr s => Return ((fun c => VStr (String c EmptyString)) <$> list_ascii_of_string s)
  | _ => Raise TypeError
  end.

(** [float(n)] for an integer [n]: the nearest binary64 value, ties to even;
    [OverflowError] when that is out of range. *)
Definition float_of_int (z : Z) : result float :=
  let f := SF2Prim (binary_normalize prec emax z 0 false) in
  if PrimFloat.is_infinity f then Raise OverflowError else Return f.

(** ** [schemas.py]: the validated data model *)

(** A field of a request body as the framework hands it to the validators:
    not sent, sent as [null], sent with a value that cannot be read at the
    declared type, or sent with a value of that type. *)
Inductive raw (A : Type) :=
| Absent
| Null
| Malformed
| Given (a : A).

Arguments Absent {A}.
Arguments Null {A}.
Arguments Malformed {A}.
Arguments Given {A} a.

Inductive number :=
| Int (z : Z)
| Float (f : float).

(** What a validation error reports: where, and which requirement failed. *)
Inductive problem :=
| missing
| none_not_allowed
| type_error
| greater_than_equal (b : number)
| less_than_equal (b : number).

Inductive loc_item :=
| Key (k : string)
| Idx (i : nat).

Definition violation : Type := list loc_item * problem.

(** The outcome of validating a model: the entity, or every violation found. *)
Inductive validated (A : Type) :=
| Valid (a : A)
| Errors (es : list violation).

Arguments Valid {A} a.
Arguments Errors {A} es.

#[global] Instance validated_fmap : FMap validated := fun A B f x =>
  match x with
  | Valid a => Valid (f a)
  | Errors es => Errors es
  end.

(** Fields are validated independently and their errors collected. *)
Definition vap {A B : Type} (f : validated (A -> B)) (x : validated A) : validated B :=
  match f, x with
  | Valid g, Valid a => Valid (g a)
  | Valid _, Errors es => Errors es
  | Errors es, Valid _ => Errors es
  | Errors es, Errors es' => Errors (es ++ es')%list
  end.

Infix "<*>" := vap (at level 61, left associativity).

Definition errors {A : Type} (x : validated A) : list violation :=
  match x with
  | Valid _ => []
  | Errors es => es
  end.

(** Numeric types that [ge=] and [le=] can bound. *)
Class Numeric (A : Type) := {
  num_leb : A -> A -> bool;
  to_number : A -> number
}.

#[global] Instance Z_numeric : Numeric Z :=
  {| num_leb := Z.leb; to_number := Int |}.

#[global] Instance float_numeric : Numeric float :=
  {| num_leb := PrimFloat.leb; to_number := Float |}.

Inductive bound (A : Type) :=
| ge (b : A)
| le (b : A).

Arguments ge {A} b.
Arguments le {A} b.

Definition satisfies `{Numeric A} (c : bound A) (a : A) : bool :=
  match c with
  | ge b => num_leb b a
  | le b => num_leb a b
  end.

Definition problem_of `{Numeric A} (c : bound A) : problem :=
  match c with
  | ge b => greater_than_equal (to_number b)
  | le b => less_than_equal (to_number b)
  end.

(** [Field(..., ge=.., le=..)]: the bounds a value breaks. *)
Definition bounds `{Numeric A} (cs : list (bound A)) (a : A) : list problem :=
  problem_of <$> filter (fun c => satisfies c a = false) cs.

Definition unconstrained {A : Type} (a : A) : list problem := [].

Definition report (k : string) (ps : list problem) : list violation :=
  (fun p => ([Key k], p)) <$> ps.

Definition checked {A : Type} (k : string) (check : A -> list problem) (a : A) : validated A :=
  match check a with
  | [] => Valid a
  | ps => Errors (report k ps)
  end.

(** [k: T = Field(...)]: a required field. *)
Definition required {A : Type} (k : string) (check : A -> list problem) (r : raw A) : validated A :=
  match r with
  | Absent => Errors (report k [missing])
  | Null => Errors (report k [none_not_allowed])
  | Malformed => Errors (report k [type_error])
  | Given a => checked k check a
  end.

(** [k: Optional[T] = Field(dflt, ...)]: may be left out or sent as [null]. *)
Definition optional {A : Type} (k : string) (dflt : option A) (check : A -> list problem)
    (r : raw A) : validated (option A) :=
  match r with
  | Absent => Valid dflt
  | Null => Valid None
  | Malformed => Errors (report k [type_error])
  | Given a => Some <$> checked k check a
  end.

(** [k: T = Field(dflt, ...)]: may be left out, but not sent as [null]. *)
Definition defaulted {A : Type} (k : string) (dflt : A) (check : A -> list problem)
    (r : raw A) : validated A :=
  match r with
  | Absent => Valid dflt
  | Null => Errors (report k [none_not_allowed])
  | Malformed => Errors (report k [type_error])
  | Given a => checked k check a
  end.

(** Errors of a nested value are reported below the enclosing location. *)
Definition nested {A : Type} (here : list loc_item) (x : validated A) : validated A :=
  match x with
  | Valid a => Valid a
  | Errors es => Errors ((fun v => ((here ++ v.1)%list, v.2)) <$> es)
  end.

(** The items of a list-valued field, each validated at its index. *)
Fixpoint items {P A : Type} (validate : P -> validated A) (i : nat) (l : list P)
    : validated (list A) :=
  match l with
  | [] => Valid []
  | p :: l' => cons <$> nested [Idx i] (validate p) <*> items validate (S i) l'
  end.

Definition list_of {P A : Type} (validate : P -> validated A) (k : string)
    (check_field : raw (list A) -> validated (list A)) (r : raw (list P)) : validated (list A) :=
  match r with
  | Given l =>
      match nested [Key k] (items validate 0 l) with
      | Valid l' => check_field (Given l')
      | Errors es => Errors es
      end
  | Absent => check_field Absent
  | Null => check_field Null
  | Malformed => check_field Malformed
  end.

Definition model_of {P A : Type} (validate : P -> validated A) (k : string)
    (check_field : raw A -> validated A) (r : raw P) : validated A :=
  match r with
  | Given p =>
      match nested [Key k] (validate p) with
      | Valid a => check_field (Given a)
      | Errors es => Errors es
      end
  | Absent => check_field Absent
  | Null => check_field Null
  | Malformed => check_field Malformed
  end.

Record date := { year : Z; month : Z; day : Z }.

(** [class Exercise(BaseModel)], lines 13-18. *)
Module Exercise.

Record t := mk {
  name : string;
  sets : Z;
  reps : Z;
  weight : option float;
  notes : option string
}.

Record payload := body {
  raw_name : raw string;
  raw_sets : raw Z;
  raw_reps : raw Z;
  raw_weight : raw float;
  raw_notes : raw string
}.

Definition validate (p : payload) : validated t :=
  mk <$> required "name" unconstrained (raw_name p)
     <*> required "sets" (bounds [ge 1; le 20]%Z) (raw_sets p)
     <*> required "reps" (bounds [ge 1; le 100]%Z) (raw_reps p)
     <*> optional "weight" None (bounds [ge 0%float]) (raw_weight p)
     <*> optional "notes" None unconstrained (raw_notes p).

End Exercise.

(** [class WorkoutTemplate(BaseModel)], lines 20-24. *)
Module WorkoutTemplate.

Record t := mk {
  title : string;
  description : option string;
  exercises : list Exercise.t;
  level : option string
}.

Record payload := body {
  raw_title : raw string;
  raw_description : raw string;
  raw_exercises : raw (list Exercise.payload);
  raw_level : raw string
}.

Definition validate (p : payload) : validated t :=
  mk <$> required "title" unconstrained (raw_title p)
     <*> optional "description" None unconstrained (raw_description p)
     <*> list_of Exercise.validate "exercises"
           (defaulted "exercises" [] unconstrained) (raw_exercises p)
     <*> optional "level" None unconstrained (raw_level p).

End WorkoutTemplate.

(** [class WorkoutSession(BaseModel)], lines 26-31. *)
Module WorkoutSession.

Record t := mk {
  user_id : string;
  session_date : date;
  title : string;
  exercises : list Exercise.t;
  notes : option string
}.

Record payload := body {
  raw_user_id : raw string;
  raw_session_date : raw date;
  raw_title : raw string;
  raw_exercises : raw (list Exercise.payload);
  raw_notes : raw string
}.

Definition validate (p : payload) : validated t :=
  mk <$> required "user_id" unconstrained (raw_user_id p)
     <*> required "session_date" unconstrained (raw_session_date p)
     <*> required "title" unconstrained (raw_title p)
     <*> list_of Exercise.validate "exercises"
           (defaulted "exercises" [] unconstrained) (raw_exercises p)
     <*> optional "notes" None unconstrained (raw_notes p).

End WorkoutSession.

(** [class FoodItem(BaseModel)], lines 35-43. The defaults [0] of the
    macro fields are the number zero. *)
Module FoodItem.

Record t := mk {
  barcode : option string;
  name : string;
  brand : option string;
  calories : float;
  protein : option float;
  carbs : option float;
  fat : option float;
  serving_size : option string
}.

Record payload := body {
  raw_barcode : raw string;
  raw_name : raw string;
  raw_brand : raw string;
  raw_calories : raw float;
  raw_protein : raw float;
  raw_carbs : raw float;
  raw_fat : raw float;
  raw_serving_size : raw string
}.

Definition validate (p : payload) : validated t :=
  mk <$> optional "barcode" None unconstrained (raw_barcode p)
     <*> required "name" unconstrained (raw_name p)
     <*> optional "brand" None unconstrained (raw_brand p)
     <*> required "calories" (bounds [ge 0%float]) (raw_calories p)
     <*> optional "protein" (Some 0%float) (bounds [ge 0%float]) (raw_protein p)
     <*> optional "carbs" (Some 0%float) (bounds [ge 0%float]) (raw_carbs p)
     <*> optional "fat" (Some 0%float) (bounds [ge 0%float]) (raw_fat p)
     <*> optional "serving_size" None unconstrained (raw_serving_size p).

End FoodItem.

(** [class FoodLog(BaseModel)], lines 45-50. [0x1.999999999999ap-4] is the
    binary64 value of the literal [0.1]. *)
Module FoodLog.

Record t := mk {
  user_id : string;
  log_date : date;
  meal : option string;
  item : FoodItem.t;
  quantity : float
}.

Record payload := body {
  raw_user_id : raw string;
  raw_log_date : raw date;
  raw_meal : raw string;
  raw_item : raw FoodItem.payload;
  raw_quantity : raw float
}.

Definition validate (p : payload) : validated t :=
  mk <$> required "user_id" unconstrained (raw_user_id p)
     <*> required "log_date" unconstrained (raw_log_date p)
     <*> optional "meal" (Some "unspecified") unconstrained (raw_meal p)
     <*> model_of FoodItem.validate "item" (required "item" unconstrained) (raw_item p)
     <*> defaulted "quantity" 1%float (bounds [ge 0x1.999999999999ap-4%float]) (raw_quantity p).

End FoodLog.

(** ** Regular expressions, as the store evaluates [$regex] *)

(** The fragment of the pattern language that is modelled: a sequence of
    literal characters and of [.], which stands for any character but a line
    feed. A pattern that uses any other metacharacter is outside the
    fragment. Case is folded on the ASCII letters. *)
Inductive atom :=
| AnyChar
| Lit (c : ascii).

Definition metacharacters : list ascii := list_ascii_of_string "\^$.|?*+()[]{}".

Definition metachar (c : ascii) : bool := bool_decide (c ∈ metacharacters).

Definition parse_atom (c : ascii) : option atom :=
  if Ascii.eqb c "." then Some AnyChar
  else if metachar c then None
  else Some (Lit c).

Definition parse_pattern (p : string) : option (list atom) :=
  mapM parse_atom (list_ascii_of_string p).

Definition lower (c : ascii) : ascii :=
  let n := nat_of_ascii c in
  if (65 <=? n)%nat && (n <=? 90)%nat then ascii_of_nat (n + 32) else c.

Definition line_feed : ascii := ascii_of_nat 10.

Definition atom_matches (fold : bool) (a : atom) (c : ascii) : bool :=
  match a with
  | AnyChar => negb (Ascii.eqb c line_feed)
  | Lit x => if fold then Ascii.eqb (lower x) (lower c) else Ascii.eqb x c
  end.

Fixpoint match_here (fold : bool) (atoms : list atom) (s : list ascii) : bool :=
  match atoms, s with
  | [], _ => true
  | _ :: _, [] => false
  | a :: atoms', c :: s' => atom_matches fold a c && match_here fold atoms' s'
  end.

Fixpoint search (fold : bool) (atoms : list atom) (s : list ascii) : bool :=
  match_here fold atoms s ||
  match s with
  | [] => false
  | _ :: s' => search fold atoms s'
  end.

(** [None]: the pattern or the options are outside the modelled fragment. *)
Definition regex_search (pattern options subject : string) : option bool :=
  atoms ← parse_pattern pattern;
  fold ← (if String.eqb options "i" then Some true
          else if String.eqb options "" then Some false else None);
  Some (search fold atoms (list_ascii_of_string subject)).

(** ** The document store gateway ([database.py]) *)

Record database := {
  collections : gmap string (list dict);
  next_oid : N
}.

Definition collection (d : database) (name : string) : list dict :=
  default [] (collections d !! name).

(** The store's reading of the filter documents the handlers build, a
    fragment of its query language: a field given a plain text asks for that
    very text, a field given [$regex] and [$options] asks for a text that the
    pattern matches. [None]: the condition is outside the fragment. *)
Definition matches_condition (doc : dict) (k : string) (cond : value) : option bool :=
  match cond with
  | VStr s =>
      Some (match doc !! k with
            | Some (VStr s') => String.eqb s s'
            | _ => false
            end)
  | VDict c =>
      match c !! "$regex", c !! "$options" with
      | Some (VStr p), Some (VStr o) =>
          if bool_decide (dom c = {["$regex"; "$options"]}) then
            match doc !! k with
            | Some (VStr s) => regex_search p o s
            | _ => Some false
            end
          else None
      | _, _ => None
      end
  | _ => None
  end.

Definition operator (k : string) : bool :=
  match k with
  | String c _ => Ascii.eqb c "$"
  | EmptyString => false
  end.

Definition all_of (l : list (option bool)) : option bool :=
  forallb id <$> mapM id l.

Definition any_of (l : list (option bool)) : option bool :=
  existsb id <$> mapM id l.

(** A filter without operators holds when each of its fields does. *)
Definition matches_fields (filt : dict) (doc : dict) : option bool :=
  all_of ((fun kv => if operator kv.1 then None else matches_condition doc kv.1 kv.2)
          <$> map_to_list filt).

(** [{}] is the unconstrained predicate; [$or] holds when one of its
    alternatives does. *)
Definition matches (filt : dict) (doc : dict) : option bool :=
  all_of ((fun kv =>
             if String.eqb kv.1 "$or" then
               match kv.2 with
               | VList qs =>
                   any_of ((fun q => match q with
                                     | VDict f => matches_fields f doc
                                     | _ => None
                                     end) <$> qs)
               | _ => None
               end
             else if operator kv.1 then None
             else matches_condition doc kv.1 kv.2)
          <$> map_to_list filt).

Fixpoint select (filt : dict) (docs : list dict) : option (list dict) :=
  match docs with
  | [] => Some []
  | d :: docs' =>
      b ← matches filt d;
      rest ← select filt docs';
      Some (if b : bool then d :: rest else rest)
  end.

(** Modelled from the spec: [get_documents(collection_name, filter, limit)] of
    [database.py], which is not among the source files, as section 4.4 states
    it: the documents of the collection that match the predicate, capped at
    [limit] documents when a limit is given; a store that is not available is
    a service error. The handlers below take [get_documents] as a parameter;
    this model shows that what is assumed of it can be met. *)
Definition get_documents_model (db : option database) (name : string) (filt : dict)
    (limit : option Z) : option (result (list dict)) :=
  match db with
  | None => Some (Raise StoreError)
  | Some d =>
      docs ← select filt (collection d name);
      Some (Return (match limit with
                    | Some n => take (Z.to_nat n) docs
                    | None => docs
                    end))
  end.

(** What the store keeps of a validated entity. *)
Class BaseModel (A : Type) := model_dump : A -> dict.

Definition dump_option {A : Type} (f : A -> value) (o : option A) : value :=
  match o with
  | Some a => f a
  | None => VNone
  end.

Definition two_digits (n : Z) : string :=
  if (n <? 10)%Z then "0" +:+ pretty n else pretty n.

Definition four_digits (n : Z) : string :=
  (if (n <? 10)%Z then "000" else if (n <? 100)%Z then "00"
   else if (n <? 1000)%Z then "0" else "") +:+ pretty n.

Definition isoformat (d : date) : string :=
  four_digits (year d) +:+ "-" +:+ two_digits (month d) +:+ "-" +:+ two_digits (day d).

#[global] Instance Exercise_model : BaseModel Exercise.t := fun e =>
  {[ "name" := VStr (Exercise.name e);
     "sets" := VInt (Exercise.sets e);
     "reps" := VInt (Exercise.reps e);
     "weight" := dump_option VFloat (Exercise.weight e);
     "notes" := dump_option VStr (Exercise.notes e) ]}.

#[global] Instance WorkoutTemplate_model : BaseModel WorkoutTemplate.t := fun t =>
  {[ "title" := VStr (WorkoutTemplate.title t);
     "description" := dump_option VStr (WorkoutTemplate.description t);
     "exercises" := VList ((fun e => VDict (model_dump e)) <$> WorkoutTemplate.exercises t);
     "level" := dump_option VStr (WorkoutTemplate.level t) ]}.

#[global] Instance WorkoutSession_model : BaseModel WorkoutSession.t := fun s =>
  {[ "user_id" := VStr (WorkoutSession.user_id s);
     "session_date" := VStr (isoformat (WorkoutSession.session_date s));
     "title" := VStr (WorkoutSession.title s);
     "exercises" := VList ((fun e => VDict (model_dump e)) <$> WorkoutSession.exercises s);
     "notes" := dump_option VStr (WorkoutSession.notes s) ]}.

#[global] Instance FoodItem_model : BaseModel FoodItem.t := fun i =>
  {[ "barcode" := dump_option VStr (FoodItem.barcode i);
     "name" := VStr (FoodItem.name i);
     "brand" := dump_option VStr (FoodItem.brand i);
     "calories" := VFloat (FoodItem.calories i);
     "protein" := dump_option VFloat (FoodItem.protein i);
     "carbs" := dump_option VFloat (FoodItem.carbs i);
     "fat" := dump_option VFloat (FoodItem.fat i);
     "serving_size" := dump_option VStr (FoodItem.serving_size i) ]}.

#[global] Instance FoodLog_model : BaseModel FoodLog.t := fun l =>
  {[ "user_id" := VStr (FoodLog.user_id l);
     "log_date" := VStr (isoformat (FoodLog.log_date l));
     "meal" := dump_option VStr (FoodLog.meal l);
     "item" := VDict (model_dump (FoodLog.item l));
     "quantity" := VFloat (FoodLog.quantity l) ]}.

(** What a handler answers: a body, the framework's rejection of the request
    (status 422) or a server error (status 500). *)
Inductive response :=
| OK (body : value)
| Unprocessable (errs : list violation)
| ServerError (e : exn).

(** What the store handle answers to the diagnostics of [test_database]:
    its [name], and [list_collection_names()], which gives the names or
    raises; [shown] is the text the handler then prints, [str(e)[:80]]. *)
Inductive listing :=
| Names (collections : list string)
| Failure (shown : string).

Record handle := {
  handle_name : string;
  list_collection_names : listing
}.

Section Builtins.

(** Python's [float] on text and [str] on an arbitrary value are builtins
    whose grammar and formatting lie outside the repository: the development
    is parametric in them. *)
Variable float_of_str : string -> option float.
Variable str : value -> string.

(** [get_documents] and [create_document] of [database.py], which is not
    among the source files: the handlers are parametric in them. *)
Variable get_documents : option database -> string -> dict -> option Z -> result (list dict).
Variable create_document :
  ∀ A : Type, BaseModel A -> string -> A -> option database -> result value * option database.

Arguments create_document {A} {_} _ _ _.

(** [float(x)] *)
Definition py_float (x : value) : result float :=
  match x with
  | VBool b => Return (if b then 1%float else 0%float)
  | VInt z => float_of_int z
  | VFloat f => Return f
  | VStr s =>
      match float_of_str s with
      | Some f => Return f
      | None => Raise ValueError
      end
  | VNone | VObjectId _ | VList _ | VDict _ => Raise TypeError
  end.

(** ** [main.py]: helpers *)

(** [to_public(doc)], lines 27-33. *)
Definition to_public (doc : dict) : dict :=
  if negb (truthy (VDict doc)) then doc
  else
    let d := doc in
    match d !! "_id" with
    | Some oid => <["id" := VStr (str oid)]> (delete "_id" d)
    | None => d
    end.

(** [test_database], lines 41-67. [db] is what the handle answers to the two
    diagnostic calls, or [None] when there is no handle; [database_url] is
    [os.getenv("DATABASE_URL")]. Nothing in the outer [try] block raises, so
    its handler is not reached. *)
Definition test_database (db : option handle) (database_url : option string) : dict :=
  let response : dict :=
    {[ "backend" := VStr "✅ Running";
       "database" := VStr "❌ Not Available";
       "database_url" := VNone;
       "database_name" := VNone;
       "connection_status" := VStr "Not Connected";
       "collections" := VList [] ]} in
  match db with
  | Some h =>
      let response := <["database" := VStr "✅ Available"]> response in
      let response :=
        <["database_url" :=
            VStr (if truthy (dump_option VStr database_url) then "✅ Set" else "❌ Not Set")]>
          response in
      let response := <["database_name" := VStr (handle_name h)]> response in
      let response := <["connection_status" := VStr "Connected"]> response in
      match list_collection_names h with
      | Names collections =>
          let response := <["collections" := VList (VStr <$> take 10 collections)]> response in
          <["database" := VStr "✅ Connected & Working"]> response
      | Failure shown =>
          <["database" := VStr ("⚠️ Connected but Error: " +:+ shown)]> response
      end
  | None => <["database" := VStr "⚠️ Available but not initialized"]> response
  end.

(** Modelled from the spec: [create_document(collection_name, data)] of
    [database.py], as section 4.4 states it: inserts one document, to which
    the store assigns a fresh identifier, and returns that identifier as
    text; a store that is not available is a service error. The handlers
    take [create_document] as a parameter; this model shows that what is
    assumed of it can be met. *)
Definition create_document_model (A : Type) `{BaseModel A} (name : string) (data : A) (db : option database)
    : result value * option database :=
  match db with
  | None => (Raise StoreError, None)
  | Some d =>
      let oid := VObjectId (next_oid d) in
      let doc := <["_id" := oid]> (model_dump data) in
      (Return (VStr (str oid)),
       Some {| collections := <[name := (collection d name ++ [doc])%list]> (collections d);
               next_oid := N.succ (next_oid d) |})
  end.

(** ** [main.py]: workout templates *)

(** [create_template], lines 71-74. The framework validates the body against
    [WorkoutTemplate] before the handler runs. *)
Definition create_template (body : WorkoutTemplate.payload) (db : option database)
    : response * option database :=
  match WorkoutTemplate.validate body with
  | Errors es => (Unprocessable es, db)
  | Valid template =>
      match create_document "workouttemplate" template db with
      | (Return new_id, db') => (OK (VDict {[ "id" := new_id ]}), db')
      | (Raise e, db') => (ServerError e, db')
      end
  end.

(** The filter [list_templates] builds, lines 79-85. *)
Definition list_templates_filter (q : option string) : dict :=
  match q with
  | Some q =>
      if truthy (VStr q) then
        {[ "$or" := VList
             [ VDict {[ "title" :=
                          VDict {[ "$regex" := VStr q; "$options" := VStr "i" ]} ]};
               VDict {[ "description" :=
                          VDict {[ "$regex" := VStr q; "$options" := VStr "i" ]} ]} ] ]}
      else ∅
  | None => ∅
  end.

Definition public_list (docs : list dict) : value :=
  VList ((fun d => VDict (to_public d)) <$> docs).

(** [list_templates], lines 77-87. *)
Definition list_templates (q : option string) (db : option database) : response :=
  let filt := list_templates_filter q in
  match get_documents db "workouttemplate" filt None with
  | Return docs => OK (public_list docs)
  | Raise e => ServerError e
  end.

Definition exercise (name : string) (sets reps : Z) : Exercise.t :=
  Exercise.mk name sets reps None None.

(** [PREBUILT_TEMPLATES], lines 91-128. *)
Definition PREBUILT_TEMPLATES : list WorkoutTemplate.t :=
  [ WorkoutTemplate.mk
      "Push Day (Chest/Shoulders/Triceps)"
      (Some "Classic push workout")
      [ exercise "Bench Press" 4 8;
        exercise "Incline Dumbbell Press" 3 10;
        exercise "Overhead Press" 3 8;
        exercise "Lateral Raise" 3 15;
        exercise "Tricep Pushdown" 3 12 ]
      (Some "Intermediate");
    WorkoutTemplate.mk
      "Pull Day (Back/Biceps)"
      (Some "Back and biceps focus")
      [ exercise "Deadlift" 3 5;
        exercise "Bent-over Row" 4 8;
        exercise "Lat Pulldown" 3 10;
        exercise "Face Pulls" 3 15;
        exercise "Bicep Curl" 3 12 ]
      (Some "Intermediate");
    WorkoutTemplate.mk
      "Leg Day"
      (Some "Quads, hamstrings, glutes")
      [ exercise "Squat" 4 6;
        exercise "Romanian Deadlift" 3 8;
        exercise "Leg Press" 3 12;
        exercise "Leg Curl" 3 12;
        exercise "Calf Raise" 4 15 ]
      (Some "Intermediate") ].

(** The [for t in PREBUILT_TEMPLATES: create_document(...)] loop of
    [seed_templates]: it stops at the first exception. *)
Fixpoint create_each (ts : list WorkoutTemplate.t) (db : option database)
    : result unit * option database :=
  match ts with
  | [] => (Return tt, db)
  | t :: ts' =>
      match create_document "workouttemplate" t db with
      | (Return _, db') => create_each ts' db'
      | (Raise e, db') => (Raise e, db')
      end
  end.

(** [bool(db)], the truth test of [if db] at line 134. [None] is false. The
    store handle does not implement truth value testing: it raises
    [NotImplementedError] and asks to be compared with [None], which is what
    [test_database] does at line 52. *)
Definition handle_truth (db : option database) : result bool :=
  match db with
  | None => Return false
  | Some _ => Raise NotImplementedError
  end.

(** [seed_templates], lines 131-139. Every exception of the body, that of
    the truth test included, is answered as a server error. *)
Definition seed_templates (db : option database) : response * option database :=
  match handle_truth db with
  | Raise e => (ServerError e, db)
  | Return connected =>
      let existing :=
        match db with
        | Some d =>
            if connected then Z.of_nat (length (collection d "workouttemplate")) else 0%Z
        | None => 0%Z
        end in
      if (existing =? 0)%Z then
        match create_each PREBUILT_TEMPLATES db with
        | (Return _, db') =>
            (OK (VDict {[ "seeded" := VInt (Z.of_nat (length PREBUILT_TEMPLATES)) ]}), db')
        | (Raise e, db') => (ServerError e, db')
        end
      else
        (OK (VDict {[ "seeded" := VInt 0; "message" := VStr "Templates already exist" ]}),
         db)
  end.

(** ** [main.py]: workout sessions *)

(** [create_session], lines 143-146. *)
Definition create_session (body : WorkoutSession.payload) (db : option database)
    : response * option database :=
  match WorkoutSession.validate body with
  | Errors es => (Unprocessable es, db)
  | Valid session =>
      match create_document "workoutsession" session db with
      | (Return new_id, db') => (OK (VDict {[ "id" := new_id ]}), db')
      | (Raise e, db') => (ServerError e, db')
      end
  end.

(** The query parameters of [list_sessions], line 150:
    [user_id: str, limit: Optional[int] = Query(50, ge=1, le=200)]. *)
Definition list_sessions_params (user_id : raw string) (limit : raw Z)
    : validated (string * option Z) :=
  pair <$> required "user_id" unconstrained user_id
       <*> optional "limit" (Some 50%Z) (bounds [ge 1; le 200]%Z) limit.

(** [list_sessions], lines 149-153. *)
Definition list_sessions (user_id : raw string) (limit : raw Z) (db : option database)
    : response :=
  match list_sessions_params user_id limit with
  | Errors es => Unprocessable es
  | Valid (user_id, limit) =>
      let filt : dict := {[ "user_id" := VStr user_id ]} in
      match get_documents db "workoutsession" filt limit with
      | Return docs => OK (public_list docs)
      | Raise e => ServerError e
      end
  end.

(** ** [main.py]: nutrition *)

(** [float(calories) if calories is not None else 0], lines 186 and 210. *)
Definition float_or_zero (calories : value) : result value :=
  match calories with
  | VNone => Return (VInt 0)
  | _ => VFloat <$> py_float calories
  end.

(** The body of the loop of [search_food], lines 180-192, which is also the
    body of [food_by_barcode], lines 204-215: the item built from a product
    record [p]. The entries of the dictionary are evaluated in order. *)
Definition normalize (p : value) : result dict :=
  nutriments ← get p "nutriments" (VDict ∅);
  per_100g ← get nutriments "energy-kcal_100g" VNone;
  per_serving ← get nutriments "energy-kcal_serving" VNone;
  let calories := py_or per_100g per_serving in
  code ← get p "code" VNone;
  product_name ← get p "product_name" VNone;
  generic_name ← get p "generic_name" VNone;
  brands ← get p "brands" VNone;
  calories' ← float_or_zero calories;
  proteins ← get nutriments "proteins_100g" (VInt 0);
  protein ← py_float (py_or proteins (VInt 0));
  carbohydrates ← get nutriments "carbohydrates_100g" (VInt 0);
  carbs ← py_float (py_or carbohydrates (VInt 0));
  fat_100g ← get nutriments "fat_100g" (VInt 0);
  fat ← py_float (py_or fat_100g (VInt 0));
  serving_size ← get p "serving_size" VNone;
  Return ({[ "barcode" := code;
             "name" := py_or (py_or product_name generic_name) (VStr "Unknown");
             "brand" := brands;
             "calories" := calories';
             "protein" := VFloat protein;
             "carbs" := VFloat carbs;
             "fat" := VFloat fat;
             "serving_size" := serving_size ]} : dict).

Definition answer (r : result value) : response :=
  match r with
  | Return v => OK v
  | Raise e => ServerError e
  end.

(** [search_food], lines 162-195. [fetched] is what [requests.get(...)] and
    [r.json()] produce: the decoded body, or the exception they raise. *)
Definition search_food (fetched : result value) : response :=
  answer (data ← fetched;
          products ← get data "products" (VList []);
          ps ← iter products;
          results ← for_each normalize ps;
          Return (VDict {[ "results" := VList (VDict <$> results) ]})).

(** [food_by_barcode], lines 198-218. *)
Definition food_by_barcode (fetched : result value) : response :=
  answer (data ← fetched;
          product ← get data "product" VNone;
          let p := py_or product (VDict ∅) in
          item ← normalize p;
          Return (VDict item)).

(** [create_food_log], lines 222-225. *)
Definition create_food_log (body : FoodLog.payload) (db : option database)
    : response * option database :=
  match FoodLog.validate body with
  | Errors es => (Unprocessable es, db)
  | Valid log =>
      match create_document "foodlog" log db with
      | (Return new_id, db') => (OK (VDict {[ "id" := new_id ]}), db')
      | (Raise e, db') => (ServerError e, db')
      end
  end.

(** The query parameters of [list_food_logs], line 229:
    [user_id: str, log_date: Optional[str] = None]. *)
Definition list_food_logs_params (user_id : raw string) (log_date : raw string)
    : validated (string * option string) :=
  pair <$> required "user_id" unconstrained user_id
       <*> optional "log_date" None unconstrained log_date.

(** The filter [list_food_logs] builds, lines 230-232. *)
Definition list_food_logs_filter (user_id : string) (log_date : option string) : dict :=
  let filt : dict := {[ "user_id" := VStr user_id ]} in
  if truthy (dump_option VStr log_date) then
    <["log_date" := dump_option VStr log_date]> filt
  else filt.

(** [list_food_logs], lines 228-234. *)
Definition list_food_logs (user_id : raw string) (log_date : raw string)
    (db : option database) : response :=
  match list_food_logs_params user_id log_date with
  | Errors es => Unprocessable es
  | Valid (user_id, log_date) =>
      match get_documents db "foodlog" (list_food_logs_filter user_id log_date) None with
      | Return docs => OK (public_list docs)
      | Raise e => ServerError e
      end
  end.

End Builtins.

(** ** Reference notions and sample data *)

(** Stand-ins for the two builtins at the sample inputs below: [float] on a
    string of ASCII decimal digits is the integer it denotes, rounded to the
    nearest binary64 value; [str] on an identifier is its text, on an integer
    its decimal notation. No other text or value is converted there. *)
Definition digit_value (c : ascii) : option Z :=
  let n := nat_of_ascii c in
  if (48 <=? n)%nat && (n <=? 57)%nat then Some (Z.of_nat (n - 48)) else None.

Definition sample_float_of_str (s : string) : option float :=
  match list_ascii_of_string s with
  | [] => None
  | cs =>
      ds ← mapM digit_value cs;
      Some (SF2Prim (binary_normalize prec emax
                       (fold_left (fun acc d => 10 * acc + d)%Z ds 0%Z) 0 false))
  end.

Definition sample_str (v : value) : string :=
  match v with
  | VStr s => s
  | VInt z => pretty z
  | VObjectId oid => pretty oid
  | _ => ""
  end.

(** The nutriments of a product record: [p.get("nutriments", {})]. *)
Definition nutriments_of (p : dict) : value := default (VDict ∅) (p !! "nutriments").

(** A nutrient value that [float] converts whatever the text grammar is:
    a float, or an integer in the binary64 range. *)
Definition number_value (v : value) : Prop :=
  match v with
  | VFloat _ => True
  | VInt z => ∃ f, float_of_int z = Return f
  | _ => False
  end.

(** A record whose nutrient fields, where present, hold numbers or [null]. *)
Definition numeric_nutriments (n : dict) : Prop :=
  ∀ k v, k ∈ ["energy-kcal_100g"; "energy-kcal_serving"; "proteins_100g";
              "carbohydrates_100g"; "fat_100g"] ->
         n !! k = Some v -> v = VNone ∨ number_value v.

(** A response of the barcode service that carries no product record. *)
Definition no_product (data : dict) : Prop :=
  truthy (default VNone (data !! "product")) = false.

(** The item [food_by_barcode] answers when there is no product. *)
Definition placeholder_item : dict :=
  {[ "barcode" := VNone;
     "name" := VStr "Unknown";
     "brand" := VNone;
     "calories" := VInt 0;
     "protein" := VFloat 0;
     "carbs" := VFloat 0;
     "fat" := VFloat 0;
     "serving_size" := VNone ]}.

(** A stored document that carries a field ["id"] of its own. *)
Definition legacy_doc : dict :=
  {[ "_id" := VObjectId 7; "id" := VInt 41; "title" := VStr "Leg Day" ]}.

(** A product whose energy per 100 g is zero and whose energy per serving
    is not. *)
Definition zero_per_100g : value :=
  VDict {[ "product_name" := VStr "Diet soda";
           "nutriments" := VDict {[ "energy-kcal_100g" := VInt 0;
                                    "energy-kcal_serving" := VInt 120 ]} ]}.

(** The payload of section 8: no [proteins_100g], 250 kcal per 100 g. *)
Definition sample_product : dict :=
  {[ "code" := VStr "3017620422003";
     "product_name" := VStr "Hazelnut spread";
     "nutriments" := VDict {[ "energy-kcal_100g" := VInt 250 ]} ]}.

(** What the barcode service answers for a code it does not know. *)
Definition not_found : dict :=
  {[ "code" := VStr "0000000000000";
     "status" := VInt 0;
     "status_verbose" := VStr "product not found" ]}.

(** Case-insensitive containment, as section 4.2 words it: [q] occurs in
    [s] once the case of both is folded. *)
Definition fold_case (s : string) : list ascii := lower <$> list_ascii_of_string s.

Definition contains_ci (q s : string) : Prop :=
  ∃ pre post, fold_case s = (pre ++ fold_case q ++ post)%list.

(** A query without regular-expression metacharacters. *)
Definition literal (q : string) : Prop :=
  Forall (fun c => metachar c = false) (list_ascii_of_string q).

(** The title or the description of [doc] is a text that contains [q]. *)
Definition mentions (doc : dict) (q : string) : Prop :=
  ∃ s, (doc !! "title" = Some (VStr s) ∨ doc !! "description" = Some (VStr s))
       ∧ contains_ci q s.

(** The three templates of section 8 as documents of the store. *)
Definition push_day : dict :=
  {[ "title" := VStr "Push Day"; "description" := VNone;
     "exercises" := VList []; "level" := VNone ]}.

Definition pull_day : dict :=
  {[ "title" := VStr "Pull Day"; "description" := VNone;
     "exercises" := VList []; "level" := VNone ]}.

Definition leg_day : dict :=
  {[ "title" := VStr "Leg Day"; "description" := VNone;
     "exercises" := VList []; "level" := VNone ]}.

(** The document belongs to the user: its [user_id] is that very text. *)
Definition owned_by (user_id : string) (doc : dict) : bool :=
  match doc !! "user_id" with
  | Some (VStr s) => String.eqb user_id s
  | _ => false
  end.

Definition session_doc (oid : N) (user title : string) : dict :=
  {[ "_id" := VObjectId oid; "user_id" := VStr user; "title" := VStr title ]}.

(** A store with three sessions, two of them of user u1. *)
Definition sessions_db : database :=
  {| collections :=
       {[ "workoutsession" :=
            [ session_doc 1 "u1" "Push"; session_doc 2 "u2" "Pull";
              session_doc 3 "u1" "Legs" ] ]};
     next_oid := 4 |}.

Definition empty_db : database := {| collections := ∅; next_oid := 1 |}.

(** The model of the gateway as a value for the parameter of the read
    handlers; a filter outside the modelled fragment, which the sample
    requests do not build, is answered with an error. *)
Definition sample_get_documents (db : option database) (name : string) (filt : dict)
    (limit : option Z) : result (list dict) :=
  default (Raise StoreError) (get_documents_model db name filt limit).

(** What section 4.4 promises of [get_documents]: at most [limit] documents,
    each matching the predicate. *)
Definition honours_limit_and_filter
    (get_documents : option database -> string -> dict -> option Z -> result (list dict))
    : Prop :=
  ∀ db name filt limit docs,
    get_documents db name filt limit = Return docs ->
    (∀ n, limit = Some n -> (length docs ≤ Z.to_nat n)%nat)
    ∧ Forall (fun doc => matches filt doc = Some true) docs.

(** The keyword arguments of the three [WorkoutTemplate(...)] calls of
    lines 91-128. *)
Definition exercise_args (name : string) (sets reps : Z) : Exercise.payload :=
  Exercise.body (Given name) (Given sets) (Given reps) Absent Absent.

Definition prebuilt_arguments : list WorkoutTemplate.payload :=
  [ WorkoutTemplate.body
      (Given "Push Day (Chest/Shoulders/Triceps)")
      (Given "Classic push workout")
      (Given [ Exercise.body (Given "Bench Press") (Given 4%Z) (Given 8%Z) Null Absent;
               exercise_args "Incline Dumbbell Press" 3 10;
               exercise_args "Overhead Press" 3 8;
               exercise_args "Lateral Raise" 3 15;
               exercise_args "Tricep Pushdown" 3 12 ])
      (Given "Intermediate");
    WorkoutTemplate.body
      (Given "Pull Day (Back/Biceps)")
      (Given "Back and biceps focus")
      (Given [ exercise_args "Deadlift" 3 5;
               exercise_args "Bent-over Row" 4 8;
               exercise_args "Lat Pulldown" 3 10;
               exercise_args "Face Pulls" 3 15;
               exercise_args "Bicep Curl" 3 12 ])
      (Given "Intermediate");
    WorkoutTemplate.body
      (Given "Leg Day")
      (Given "Quads, hamstrings, glutes")
      (Given [ exercise_args "Squat" 4 6;
               exercise_args "Romanian Deadlift" 3 8;
               exercise_args "Leg Press" 3 12;
               exercise_args "Leg Curl" 3 12;
               exercise_args "Calf Raise" 4 15 ])
      (Given "Intermediate") ].

(** ** The field constraints of section 3, stated declaratively *)

(** How a field may be left out: [k: T = Field(...)] must be given,
    [k: Optional[T] = ...] may be absent or [null], [k: T = Field(dflt)]
    may be absent. *)
Inductive presence :=
| Required
| Nullable
| Defaulted.

(** The field meets its constraint. *)
Definition holds {A : Type} (m : presence) (ok : A -> Prop) (r : raw A) : Prop :=
  match r with
  | Given a => ok a
  | Absent => m ≠ Required
  | Null => m = Nullable
  | Malformed => False
  end.

(** The field breaks the requirement [pr]. *)
Definition breaks {A : Type} (m : presence) (fails : A -> problem -> Prop) (r : raw A)
    (pr : problem) : Prop :=
  match r with
  | Given a => fails a pr
  | Absent => m = Required ∧ pr = missing
  | Null => m ≠ Nullable ∧ pr = none_not_allowed
  | Malformed => pr = type_error
  end.

Definition field_breaks {A : Type} (k : string) (m : presence)
    (fails : A -> problem -> Prop) (r : raw A) (v : violation) : Prop :=
  ∃ pr, v = ([Key k], pr) ∧ breaks m fails r pr.

Definition anything {A : Type} (a : A) : Prop := True.

Definition within (lo hi z : Z) : Prop := (lo ≤ z ≤ hi)%Z.

Definition at_least (b w : float) : Prop := PrimFloat.leb b w = true.

Definition no_bound {A : Type} (a : A) (pr : problem) : Prop := False.

Definition outside (lo hi z : Z) (pr : problem) : Prop :=
  ((z < lo)%Z ∧ pr = greater_than_equal (Int lo))
  ∨ ((hi < z)%Z ∧ pr = less_than_equal (Int hi)).

Definition below (b w : float) (pr : problem) : Prop :=
  PrimFloat.leb b w = false ∧ pr = greater_than_equal (Float b).

(** A violation found in an item of a list field, or in a nested model. *)
Definition in_item {P : Type} (k : string) (violates : P -> violation -> Prop)
    (r : raw (list P)) (v : violation) : Prop :=
  ∃ l i p v', r = Given l ∧ l !! i = Some p ∧ violates p v'
              ∧ v = ((Key k :: Idx i :: v'.1)%list, v'.2).

Definition in_model {P : Type} (k : string) (violates : P -> violation -> Prop)
    (r : raw P) (v : violation) : Prop :=
  ∃ p v', r = Given p ∧ violates p v' ∧ v = ((Key k :: v'.1)%list, v'.2).

Definition Exercise_conforms (p : Exercise.payload) : Prop :=
  holds Required anything (Exercise.raw_name p)
  ∧ holds Required (within 1 20) (Exercise.raw_sets p)
  ∧ holds Required (within 1 100) (Exercise.raw_reps p)
  ∧ holds Nullable (at_least 0) (Exercise.raw_weight p)
  ∧ holds Nullable anything (Exercise.raw_notes p).

Definition Exercise_violation (p : Exercise.payload) (v : violation) : Prop :=
  field_breaks "name" Required no_bound (Exercise.raw_name p) v
  ∨ field_breaks "sets" Required (outside 1 20) (Exercise.raw_sets p) v
  ∨ field_breaks "reps" Required (outside 1 100) (Exercise.raw_reps p) v
  ∨ field_breaks "weight" Nullable (below 0) (Exercise.raw_weight p) v
  ∨ field_breaks "notes" Nullable no_bound (Exercise.raw_notes p) v.

Definition WorkoutTemplate_conforms (p : WorkoutTemplate.payload) : Prop :=
  holds Required anything (WorkoutTemplate.raw_title p)
  ∧ holds Nullable anything (WorkoutTemplate.raw_description p)
  ∧ holds Defaulted (Forall Exercise_conforms) (WorkoutTemplate.raw_exercises p)
  ∧ holds Nullable anything (WorkoutTemplate.raw_level p).

Definition WorkoutTemplate_violation (p : WorkoutTemplate.payload) (v : violation) : Prop :=
  field_breaks "title" Required no_bound (WorkoutTemplate.raw_title p) v
  ∨ field_breaks "description" Nullable no_bound (WorkoutTemplate.raw_description p) v
  ∨ (field_breaks "exercises" Defaulted no_bound (WorkoutTemplate.raw_exercises p) v
     ∨ in_item "exercises" Exercise_violation (WorkoutTemplate.raw_exercises p) v)
  ∨ field_breaks "level" Nullable no_bound (WorkoutTemplate.raw_level p) v.

Definition WorkoutSession_conforms (p : WorkoutSession.payload) : Prop :=
  holds Required anything (WorkoutSession.raw_user_id p)
  ∧ holds Required anything (WorkoutSession.raw_session_date p)
  ∧ holds Required anything (WorkoutSession.raw_title p)
  ∧ holds Defaulted (Forall Exercise_conforms) (WorkoutSession.raw_exercises p)
  ∧ holds Nullable anything (WorkoutSession.raw_notes p).

Definition WorkoutSession_violation (p : WorkoutSession.payload) (v : violation) : Prop :=
  field_breaks "user_id" Required no_bound (WorkoutSession.raw_user_id p) v
  ∨ field_breaks "session_date" Required no_bound (WorkoutSession.raw_session_date p) v
  ∨ field_breaks "title" Required no_bound (WorkoutSession.raw_title p) v
  ∨ (field_breaks "exercises" Defaulted no_bound (WorkoutSession.raw_exercises p) v
     ∨ in_item "exercises" Exercise_violation (WorkoutSession.raw_exercises p) v)
  ∨ field_breaks "notes" Nullable no_bound (WorkoutSession.raw_notes p) v.

Definition FoodItem_conforms (p : FoodItem.payload) : Prop :=
  holds Nullable anything (FoodItem.raw_barcode p)
  ∧ holds Required anything (FoodItem.raw_name p)
  ∧ holds Nullable anything (FoodItem.raw_brand p)
  ∧ holds Required (at_least 0) (FoodItem.raw_calories p)
  ∧ holds Nullable (at_least 0) (FoodItem.raw_protein p)
  ∧ holds Nullable (at_least 0) (FoodItem.raw_carbs p)
  ∧ holds Nullable (at_least 0) (FoodItem.raw_fat p)
  ∧ holds Nullable anything (FoodItem.raw_serving_size p).

Definition FoodItem_violation (p : FoodItem.payload) (v : violation) : Prop :=
  field_breaks "barcode" Nullable no_bound (FoodItem.raw_barcode p) v
  ∨ field_breaks "name" Required no_bound (FoodItem.raw_name p) v
  ∨ field_breaks "brand" Nullable no_bound (FoodItem.raw_brand p) v
  ∨ field_breaks "calories" Required (below 0) (FoodItem.raw_calories p) v
  ∨ field_breaks "protein" Nullable (below 0) (FoodItem.raw_protein p) v
  ∨ field_breaks "carbs" Nullable (below 0) (FoodItem.raw_carbs p) v
  ∨ field_breaks "fat" Nullable (below 0) (FoodItem.raw_fat p) v
  ∨ field_breaks "serving_size" Nullable no_bound (FoodItem.raw_serving_size p) v.

Definition FoodLog_conforms (p : FoodLog.payload) : Prop :=
  holds Required anything (FoodLog.raw_user_id p)
  ∧ holds Required anything (FoodLog.raw_log_date p)
  ∧ holds Nullable anything (FoodLog.raw_meal p)
  ∧ holds Required FoodItem_conforms (FoodLog.raw_item p)
  ∧ holds Defaulted (at_least 0x1.999999999999ap-4) (FoodLog.raw_quantity p).

Definition FoodLog_violation (p : FoodLog.payload) (v : violation) : Prop :=
  field_breaks "user_id" Required no_bound (FoodLog.raw_user_id p) v
  ∨ field_breaks "log_date" Required no_bound (FoodLog.raw_log_date p) v
  ∨ field_breaks "meal" Nullable no_bound (FoodLog.raw_meal p) v
  ∨ (field_breaks "item" Required no_bound (FoodLog.raw_item p) v
     ∨ in_model "item" FoodItem_violation (FoodLog.raw_item p) v)
  ∨ field_breaks "quantity" Defaulted (below 0x1.999999999999ap-4) (FoodLog.raw_quantity p) v.

(** Sample payloads: a bench press of 4 sets of 8, one of 0 sets, and a log
    entry whose quantity 0.05 is below the minimum. *)
Definition bench_press : Exercise.payload :=
  Exercise.body (Given "Bench Press") (Given 4%Z) (Given 8%Z) Null Absent.

Definition no_sets : Exercise.payload :=
  Exercise.body (Given "Bench Press") (Given 0%Z) (Given 8%Z) Null Absent.

Definition oats : FoodItem.payload :=
  FoodItem.body Absent (Given "Oats") Absent (Given 389%float)
                (Given 0x1.0e66666666666p+4%float) Absent Absent (Given "100 g").

Definition small_log : FoodLog.payload :=
  FoodLog.body (Given "u1") (Given {| year := 2024; month := 5; day := 17 |}) Absent
               (Given oats) (Given 0x1.999999999999ap-5%float).

Definition tenth_log : FoodLog.payload :=
  FoodLog.body (Given "u1") (Given {| year := 2024; month := 5; day := 17 |}) Absent
               (Given oats) (Given 0x1.999999999999ap-4%float).

Definition is_valid {A : Type} (x : validated A) : Prop := ∃ a, x = Valid a.

(** A failed validation names at least one violation. *)
Definition proper {A : Type} (x : validated A) : Prop := x ≠ Errors [].

(** The check [check] decides the constraint [ok] and reports the
    requirements [fails]. *)
Class Decides {A : Type} (check : A -> list problem) (ok : A -> Prop)
    (fails : A -> problem -> Prop) : Prop := {
  decides_ok : ∀ a, check a = [] ↔ ok a;
  decides_fails : ∀ a pr, pr ∈ check a ↔ fails a pr
}.

#[global] Hint Mode Decides ! ! - - : typeclass_instances.

(** ** Further reference notions *)

(** The nutriment each macro entry of an item is read from. *)
Definition macro_fields : list (string * string) :=
  [ ("proteins_100g", "protein"); ("carbohydrates_100g", "carbs"); ("fat_100g", "fat") ].

(** The keys of a normalised item. *)
Definition item_keys : gset string :=
  {[ "barcode"; "name"; "brand"; "calories"; "protein"; "carbs"; "fat"; "serving_size" ]}.

(** A calories entry is a number: the integer 0 or a float. *)
Definition zero_or_float (c : value) : Prop := c = VInt 0 ∨ ∃ f, c = VFloat f.

(** A product with a generic name only, and one whose nutriments cannot be
    converted. *)
Definition generic_product : dict :=
  {[ "generic_name" := VStr "Rolled oats";
     "product_name" := VStr "";
     "brands" := VStr "Mill";
     "nutriments" := VDict {[ "proteins_100g" := VFloat 13;
                              "fat_100g" := VInt 0 ]} ]}.

Definition broken_product : dict :=
  {[ "product_name" := VStr "Mystery"; "nutriments" := VDict {[ "fat_100g" := VList [] ; "proteins_100g" := VList [VInt 1] ]} ]}.

Definition generic_item : dict :=
  {[ "barcode" := VNone; "name" := VStr "Rolled oats"; "brand" := VStr "Mill";
     "calories" := VInt 0; "protein" := VFloat 13; "carbs" := VFloat 0;
     "fat" := VFloat 0; "serving_size" := VNone ]}.

Definition spread_item : dict :=
  {[ "barcode" := VStr "3017620422003"; "name" := VStr "Hazelnut spread";
     "brand" := VNone; "calories" := VFloat 250; "protein" := VFloat 0;
     "carbs" := VFloat 0; "fat" := VFloat 0; "serving_size" := VNone ]}.

(** A search answer whose second product cannot be normalised. *)
Definition broken_search : dict :=
  {[ "products" := VList [VDict generic_product; VDict broken_product;
                          VDict sample_product] ]}.

(** The keys of the report of [test_database]. *)
Definition report_keys : gset string :=
  {[ "backend"; "database"; "database_url"; "database_name"; "connection_status";
     "collections" ]}.

(** A handle with twelve collections. *)
Definition busy_handle : handle :=
  {| handle_name := "tracker";
     list_collection_names :=
       Names [ "c01"; "c02"; "c03"; "c04"; "c05"; "c06"; "c07"; "c08"; "c09"; "c10";
               "c11"; "c12" ] |}.




(** What a validated field carries of the field sent: the value given, or
    the default of the field. *)
Definition carries_optional {A : Type} (dflt : option A) (r : raw A) (o : option A) : Prop :=
  match r with
  | Absent => o = dflt
  | Null => o = None
  | Given a => o = Some a
  | Malformed => False
  end.

Definition carries_defaulted {A : Type} (dflt : A) (r : raw A) (a : A) : Prop :=
  match r with
  | Absent => a = dflt
  | Given a' => a = a'
  | Null | Malformed => False
  end.

(** The items of a list field, validated one by one and in order; none
    when the field is not sent. *)
Definition carries_items {P A : Type} (validate : P -> validated A) (r : raw (list P))
    (l : list A) : Prop :=
  match r with
  | Absent => l = []
  | Given ps => Forall2 (fun p a => validate p = Valid a) ps l
  | Null | Malformed => False
  end.

Definition non_negative (o : option float) : Prop := ∀ w, o = Some w -> at_least 0 w.

(** The bounds of [schemas.py], read on the validated entities. *)
Definition Exercise_sound (e : Exercise.t) : Prop :=
  within 1 20 (Exercise.sets e) ∧ within 1 100 (Exercise.reps e)
  ∧ non_negative (Exercise.weight e).

Definition FoodItem_sound (i : FoodItem.t) : Prop :=
  at_least 0 (FoodItem.calories i) ∧ non_negative (FoodItem.protein i)
  ∧ non_negative (FoodItem.carbs i) ∧ non_negative (FoodItem.fat i).

(** A template body without exercises, and one with two. *)
Definition bare_template : WorkoutTemplate.payload :=
  WorkoutTemplate.body (Given "Rest day") Absent Absent Null.

Definition two_lifts : WorkoutTemplate.payload :=
  WorkoutTemplate.body (Given "Two lifts") Absent
    (Given [bench_press; Exercise.body (Given "Squat") (Given 5%Z) (Given 5%Z)
                                      (Given 100%float) Absent]) Absent.

Definition is_dict (v : value) : bool :=
  match v with
  | VDict _ => true
  | _ => false
  end.

(** A product record whose nutriments are [null]. *)
Definition null_nutriments : dict :=
  {[ "product_name" := VStr "Water"; "nutriments" := VNone ]}.

(** What the store finds when it searches the field of a document for the
    regular expression [q], case folded: a field that is not a text is not
    matched. *)
Definition searched (q : string) (field : option value) : option bool :=
  match field with
  | Some (VStr s) => regex_search q "i" s
  | _ => Some false
  end.

(** * Properties *)

(** ** [to_public] *)

Section ToPublic.

Variable str : value -> string.

Lemma to_public_unfold (doc : dict) :
  to_public str doc =
  match doc !! "_id" with
  | Some oid => <["id" := VStr (str oid)]> (delete "_id" doc)
  | None => doc
  end.
Proof.
  unfold to_public, truthy. rewrite negb_involutive.
  case_bool_decide as Hempty; [|done].
  subst doc. by rewrite lookup_empty.
Qed.

Lemma to_public_no_id (doc : dict) :
  doc !! "_id" = None -> to_public str doc = doc.
Proof. intros H. by rewrite to_public_unfold, H. Qed.

Lemma to_public_other (doc : dict) (k : string) :
  k ≠ "_id" -> k ≠ "id" -> to_public str doc !! k = doc !! k.
Proof.
  intros Hk Hk'. rewrite to_public_unfold.
  destruct (doc !! "_id"); [|done].
  rewrite lookup_insert_ne by done. by rewrite lookup_delete_ne.
Qed.

Lemma to_public_drops_id (doc : dict) : to_public str doc !! "_id" = None.
Proof.
  rewrite to_public_unfold.
  destruct (doc !! "_id") as [oid|] eqn:Hid; [|done].
  rewrite lookup_insert_ne by done. apply lookup_delete_eq.
Qed.

(** C7. [to_public] is idempotent, and its result has no ["_id"] field. *)
Theorem to_public_idempotent (doc : dict) :
  to_public str (to_public str doc) = to_public str doc
  ∧ to_public str doc !! "_id" = None.
Proof.
  split; [|apply to_public_drops_id].
  apply to_public_no_id, to_public_drops_id.
Qed.

(** C8, as amended. Every field other than ["_id"] and ["id"] is left as
    stored; a stored identifier [oid] becomes the text field ["id"], in the
    place of any ["id"] field the document had; a document without ["_id"] is
    returned as it is. *)
Theorem to_public_frame (doc : dict) :
  (∀ k, k ≠ "_id" -> k ≠ "id" -> to_public str doc !! k = doc !! k)
  ∧ (∀ oid, doc !! "_id" = Some oid ->
       to_public str doc !! "id" = Some (VStr (str oid))
       ∧ to_public str doc !! "_id" = None)
  ∧ (doc !! "_id" = None -> to_public str doc = doc).
Proof.
  split; [|split].
  - apply to_public_other.
  - intros oid Hoid. split; [|apply to_public_drops_id].
    rewrite to_public_unfold, Hoid. apply lookup_insert_eq.
  - apply to_public_no_id.
Qed.

End ToPublic.

(** A stored ["id"] field does not survive [to_public], whatever [str]
    returns: the claim of C8 fails on [legacy_doc]. *)
Lemma to_public_overwrites_id :
  ¬ ∃ str, to_public str legacy_doc !! "id" = legacy_doc !! "id".
Proof.
  intros [str H]. rewrite to_public_unfold in H.
  vm_compute in H. discriminate H.
Qed.

Lemma to_public_frame_witness :
  to_public sample_str legacy_doc !! "title" = legacy_doc !! "title"
  ∧ to_public sample_str legacy_doc !! "id" = Some (VStr "7").
Proof.
  destruct (to_public_frame sample_str legacy_doc) as (Hframe & Hid & _).
  split.
  - apply Hframe; discriminate.
  - apply (Hid (VObjectId 7)). reflexivity.
Defined.

(** ** The nutrition normaliser *)

Lemma bind_Return_inv {A B : Type} (m : result A) (k : A -> result B) (b : B) :
  m ≫= k = Return b -> ∃ a, m = Return a ∧ k a = Return b.
Proof. destruct m as [a|e]; [eauto | discriminate]. Qed.

Lemma fmap_Return_inv {A B : Type} (f : A -> B) (m : result A) (b : B) :
  f <$> m = Return b -> ∃ a, m = Return a ∧ b = f a.
Proof. destruct m as [a|e]; simpl; [|discriminate]. intros [= <-]. eauto. Qed.

Section Normaliser.

Variable float_of_str : string -> option float.

Lemma normalize_dict (p n : dict) :
  nutriments_of p = VDict n ->
  normalize float_of_str (VDict p) =
    (calories ← float_or_zero float_of_str
                  (py_or (default VNone (n !! "energy-kcal_100g"))
                         (default VNone (n !! "energy-kcal_serving")));
     protein ← py_float float_of_str
                 (py_or (default (VInt 0) (n !! "proteins_100g")) (VInt 0));
     carbs ← py_float float_of_str
               (py_or (default (VInt 0) (n !! "carbohydrates_100g")) (VInt 0));
     fat ← py_float float_of_str
             (py_or (default (VInt 0) (n !! "fat_100g")) (VInt 0));
     Return ({[ "barcode" := default VNone (p !! "code");
                "name" := py_or (py_or (default VNone (p !! "product_name"))
                                       (default VNone (p !! "generic_name")))
                                (VStr "Unknown");
                "brand" := default VNone (p !! "brands");
                "calories" := calories;
                "protein" := VFloat protein;
                "carbs" := VFloat carbs;
                "fat" := VFloat fat;
                "serving_size" := default VNone (p !! "serving_size") ]} : dict)).
Proof.
  intros Hn. unfold normalize, nutriments_of in *.
  cbn -[py_float py_or float_or_zero]. rewrite Hn. reflexivity.
Qed.

(** The entries of a normalised item, read off a successful run. *)
Lemma normalize_entries (p n item : dict) :
  nutriments_of p = VDict n ->
  normalize float_of_str (VDict p) = Return item ->
  ∃ calories protein,
    float_or_zero float_of_str
      (py_or (default VNone (n !! "energy-kcal_100g"))
             (default VNone (n !! "energy-kcal_serving"))) = Return calories
    ∧ py_float float_of_str
        (py_or (default (VInt 0) (n !! "proteins_100g")) (VInt 0)) = Return protein
    ∧ item !! "calories" = Some calories
    ∧ item !! "protein" = Some (VFloat protein).
Proof.
  intros Hn Hrun. rewrite (normalize_dict p n Hn) in Hrun.
  apply bind_Return_inv in Hrun as (calories & Hc & Hrun).
  apply bind_Return_inv in Hrun as (protein & Hp & Hrun).
  apply bind_Return_inv in Hrun as (carbs & _ & Hrun).
  apply bind_Return_inv in Hrun as (fat & _ & Hrun).
  injection Hrun as <-.
  exists calories, protein. repeat split; try assumption; reflexivity.
Qed.

Lemma coerced_inv (v c : value) :
  float_or_zero float_of_str v = Return c ->
  (v = VNone ∧ c = VInt 0)
  ∨ (v ≠ VNone ∧ ∃ f, py_float float_of_str v = Return f ∧ c = VFloat f).
Proof.
  unfold float_or_zero. intros H.
  destruct v; try (right; split; [discriminate|];
    apply fmap_Return_inv in H as (f' & Hf & ->); eauto).
  left. by injection H as <-.
Qed.

Lemma number_convertible (v : value) :
  number_value v -> ∃ f, py_float float_of_str v = Return f.
Proof. destruct v; simpl; try contradiction; eauto. Qed.

Lemma macro_convertible (o : option value) :
  (∀ v, o = Some v -> v = VNone ∨ number_value v) ->
  ∃ f, py_float float_of_str (py_or (default (VInt 0) o) (VInt 0)) = Return f.
Proof.
  intros Ho. unfold py_or.
  destruct (truthy (default (VInt 0) o)) eqn:Ht.
  - destruct o as [v|]; simpl in *.
    + destruct (Ho v eq_refl) as [->|Hnum]; [discriminate|].
      by apply number_convertible.
    + discriminate.
  - exists 0%float. reflexivity.
Qed.

(** C2, as amended. For a product record [p] with nutriments [n]:
    whenever an item is produced, its [calories] is the float of the energy
    per 100 g when that value is present and truthy (not zero, not empty),
    otherwise the float of the energy per serving when that is present and
    not [None], otherwise the integer [0]; an item is produced whenever the
    nutrient fields hold numbers; and when [proteins_100g] is absent and the
    energy per 100 g is 250, [calories] is [250.0] and [protein] is [0.0]. *)
Theorem calories_resolution (p n : dict) :
  nutriments_of p = VDict n ->
  let per_100g := n !! "energy-kcal_100g" in
  let per_serving := n !! "energy-kcal_serving" in
  (∀ item, normalize float_of_str (VDict p) = Return item ->
     (∀ v, per_100g = Some v -> truthy v = true ->
        ∃ f, py_float float_of_str v = Return f ∧ item !! "calories" = Some (VFloat f))
     ∧ (truthy (default VNone per_100g) = false ->
        (∀ v, per_serving = Some v -> v ≠ VNone ->
           ∃ f, py_float float_of_str v = Return f ∧ item !! "calories" = Some (VFloat f))
        ∧ (default VNone per_serving = VNone -> item !! "calories" = Some (VInt 0)))
     ∧ (n !! "proteins_100g" = None -> per_100g = Some (VInt 250) ->
        item !! "calories" = Some (VFloat 250) ∧ item !! "protein" = Some (VFloat 0)))
  ∧ (numeric_nutriments n -> ∃ item, normalize float_of_str (VDict p) = Return item).
Proof.
  intros Hn per_100g per_serving. split.
  - intros item Hrun.
    destruct (normalize_entries p n item Hn Hrun) as (c & pr & Hc & Hp & Hic & Hip).
    fold per_100g per_serving in Hc. unfold py_or in Hc.
    split; [|split].
    + intros v Hv Ht. rewrite Hv in Hc. simpl in Hc. rewrite Ht in Hc.
      apply coerced_inv in Hc as [[-> _]|(_ & f & Hf & ->)]; [discriminate|eauto].
    + intros Hfalsy. rewrite Hfalsy in Hc. split.
      * intros v Hv Hne. rewrite Hv in Hc. simpl in Hc.
        apply coerced_inv in Hc as [[-> _]|(_ & f & Hf & ->)]; [done|eauto].
      * intros Hnone. rewrite Hnone in Hc. by injection Hc as <-.
    + intros Hprot Hcal. rewrite Hcal in Hc. rewrite Hprot in Hp.
      vm_compute in Hc, Hp. injection Hc as <-. injection Hp as <-. done.
  - intros Hnum. subst per_100g per_serving. rewrite (normalize_dict p n Hn).
    destruct (macro_convertible (n !! "proteins_100g")) as [pr ->];
      [intros v; apply Hnum; repeat constructor|].
    destruct (macro_convertible (n !! "carbohydrates_100g")) as [ca ->];
      [intros v; apply Hnum; repeat constructor|].
    destruct (macro_convertible (n !! "fat_100g")) as [fa ->];
      [intros v; apply Hnum; repeat constructor|].
    assert (Hsel : ∃ c, float_or_zero float_of_str
                          (py_or (default VNone (n !! "energy-kcal_100g"))
                                 (default VNone (n !! "energy-kcal_serving")))
                        = Return c).
    { unfold py_or.
      destruct (truthy (default VNone (n !! "energy-kcal_100g"))) eqn:Ht.
      - destruct (n !! "energy-kcal_100g") as [v|] eqn:Hv; simpl in *; [|discriminate].
        destruct (Hnum "energy-kcal_100g" v) as [->|Hv'];
          [repeat constructor|done|discriminate|].
        destruct (number_convertible v Hv') as [f Hf].
        exists (VFloat f). unfold float_or_zero.
        destruct v; try contradiction; by rewrite Hf.
      - destruct (n !! "energy-kcal_serving") as [v|] eqn:Hv; simpl; [|by eexists].
        destruct (Hnum "energy-kcal_serving" v) as [->|Hv'];
          [repeat constructor|done|by eexists|].
        destruct (number_convertible v Hv') as [f Hf].
        exists (VFloat f). unfold float_or_zero.
        destruct v; try contradiction; by rewrite Hf. }
    destruct Hsel as [c ->]. by eexists.
Qed.

(** C9. When the response of the barcode service carries no product record,
    [food_by_barcode] answers the placeholder item, not an error. *)
Theorem barcode_placeholder (data : dict) :
  no_product data ->
  food_by_barcode float_of_str (Return (VDict data)) = OK (VDict placeholder_item).
Proof.
  unfold no_product, food_by_barcode. intros Hnone. simpl.
  unfold py_or. rewrite Hnone. reflexivity.
Qed.

End Normaliser.

(** With energy 0 per 100 g and 120 per serving the item carries 120.0, and
    for no reading of text as numbers does it carry the 0.0 that the claim of
    C2 asks for. *)
Lemma calories_zero_falls_through :
  (∃ item, normalize sample_float_of_str zero_per_100g = Return item
           ∧ item !! "calories" = Some (VFloat 120))
  ∧ ¬ ∃ float_of_str item,
        normalize float_of_str zero_per_100g = Return item
        ∧ item !! "calories" = Some (VFloat 0).
Proof.
  split.
  - eexists. split; reflexivity.
  - intros (float_of_str & item & Hrun & Hcal).
    vm_compute in Hrun. injection Hrun as <-.
    vm_compute in Hcal. discriminate Hcal.
Qed.

Lemma calories_resolution_witness :
  ∃ item, normalize sample_float_of_str (VDict sample_product) = Return item
          ∧ item !! "calories" = Some (VFloat 250)
          ∧ item !! "protein" = Some (VFloat 0).
Proof.
  destruct (calories_resolution sample_float_of_str sample_product
              {[ "energy-kcal_100g" := VInt 250 ]} eq_refl) as [Hrule Htotal].
  destruct Htotal as [item Hitem].
  - intros k v _ Hv. right.
    apply lookup_singleton_Some in Hv as [_ <-]. by eexists.
  - exists item. split; [exact Hitem|].
    apply (Hrule item Hitem); reflexivity.
Defined.

Lemma barcode_placeholder_witness :
  food_by_barcode sample_float_of_str (Return (VDict not_found))
  = OK (VDict placeholder_item).
Proof. apply (barcode_placeholder sample_float_of_str not_found). reflexivity. Defined.

(** ** Template search *)

Lemma parse_literal (cs : list ascii) :
  Forall (fun c => metachar c = false) cs -> mapM parse_atom cs = Some (Lit <$> cs).
Proof.
  induction 1 as [|c cs Hc _ IH]; [done|].
  cbn [mapM]. rewrite IH. unfold parse_atom.
  destruct (Ascii.eqb c ".") eqn:Hdot.
  - apply Ascii.eqb_eq in Hdot as ->. discriminate Hc.
  - by rewrite Hc.
Qed.

Lemma match_here_literal (qs ss : list ascii) :
  match_here true (Lit <$> qs) ss = true
  ↔ ∃ post, lower <$> ss = ((lower <$> qs) ++ (lower <$> post))%list.
Proof.
  revert ss. induction qs as [|q qs IH]; intros ss.
  - split; [intros _; by exists ss | done].
  - destruct ss as [|c ss]; rewrite !fmap_cons; cbn [match_here atom_matches].
    + split; [done | intros [post H]; discriminate H].
    + rewrite andb_true_iff, Ascii.eqb_eq, IH. split.
      * intros [Hq [post Hpost]]. exists post. cbn. by rewrite Hq, Hpost.
      * intros [post H]. cbn in H. injection H as Hq H.
        split; [done|by exists post].
Qed.

Lemma search_literal (qs ss : list ascii) :
  search true (Lit <$> qs) ss = true
  ↔ ∃ pre post, lower <$> ss = (pre ++ (lower <$> qs) ++ post)%list.
Proof.
  induction ss as [|c ss IH].
  - simpl. rewrite orb_false_r, match_here_literal. split.
    + intros [post H]. by exists [], (lower <$> post).
    + intros (pre & post & H). symmetry in H.
      apply app_eq_nil in H as [-> H]. apply app_eq_nil in H as [H ->].
      exists []. simpl. by rewrite H.
  - cbn [search]. rewrite orb_true_iff, IH, match_here_literal. split.
    + intros [[post H]|(pre & post & H)].
      * by exists [], (lower <$> post).
      * exists (lower c :: pre), post. by rewrite fmap_cons, H.
    + intros (pre & post & H). destruct pre as [|c' pre].
      * left. rewrite app_nil_l in H.
        destruct (fmap_app_inv _ _ _ _ H) as (l1 & l2 & _ & Hpost & _).
        exists l2. by rewrite <- Hpost.
      * right. rewrite fmap_cons in H. injection H as _ H. by exists pre, post.
Qed.

(** Containment is decided by the literal search. *)
Lemma contains_ci_search (q s : string) :
  contains_ci q s
  ↔ search true (Lit <$> list_ascii_of_string q) (list_ascii_of_string s) = true.
Proof. symmetry. apply search_literal. Qed.

Lemma regex_search_literal (q s : string) :
  literal q ->
  regex_search q "i" s
  = Some (search true (Lit <$> list_ascii_of_string q) (list_ascii_of_string s)).
Proof.
  intros Hq. unfold regex_search, parse_pattern.
  by rewrite (parse_literal _ Hq).
Qed.

Lemma matches_regex_condition (doc : dict) (k q : string) :
  matches_condition doc k (VDict {[ "$regex" := VStr q; "$options" := VStr "i" ]})
  = match doc !! k with
    | Some (VStr s) => regex_search q "i" s
    | _ => Some false
    end.
Proof.
  unfold matches_condition.
  rewrite lookup_insert_eq, lookup_insert_ne, lookup_singleton_eq by done.
  rewrite dom_insert_L, dom_singleton_L.
  by rewrite bool_decide_eq_true_2.
Qed.

Lemma matches_empty (doc : dict) : matches ∅ doc = Some true.
Proof. unfold matches. by rewrite map_to_list_empty. Qed.

Lemma list_templates_filter_query (q : string) :
  q ≠ "" ->
  list_templates_filter (Some q) =
  {[ "$or" := VList
       [ VDict {[ "title" := VDict {[ "$regex" := VStr q; "$options" := VStr "i" ]} ]};
         VDict {[ "description" :=
                    VDict {[ "$regex" := VStr q; "$options" := VStr "i" ]} ]} ] ]}.
Proof.
  intros Hq. unfold list_templates_filter. simpl.
  destruct (String.eqb q "") eqn:He; [|done].
  by apply String.eqb_eq in He.
Qed.

(** What the filter built for a non-empty query computes on a document. *)
Lemma matches_query (q : string) (doc : dict) :
  q ≠ "" ->
  matches (list_templates_filter (Some q)) doc
  = any_of [ all_of [ match doc !! "title" with
                      | Some (VStr s) => regex_search q "i" s
                      | _ => Some false
                      end ];
             all_of [ match doc !! "description" with
                      | Some (VStr s) => regex_search q "i" s
                      | _ => Some false
                      end ] ]
    ≫= fun b => Some (b && true).
Proof.
  intros Hq. rewrite (list_templates_filter_query q Hq).
  unfold matches. rewrite map_to_list_singleton.
  cbn [fmap list_fmap fst snd String.eqb Ascii.eqb Bool.eqb].
  unfold matches_fields. rewrite !map_to_list_singleton.
  cbn [fmap list_fmap fst snd operator Ascii.eqb Bool.eqb].
  rewrite !matches_regex_condition.
  unfold all_of at 1. cbn [mapM id].
  by destruct (any_of _).
Qed.

Lemma field_search (q : string) (doc : dict) (k : string) :
  literal q ->
  ∃ b, match doc !! k with
       | Some (VStr s) => regex_search q "i" s
       | _ => Some false
       end = Some b
       ∧ (b = true ↔ ∃ s, doc !! k = Some (VStr s) ∧ contains_ci q s).
Proof.
  intros Hq. destruct (doc !! k) as [[| | | |s| | |]|] eqn:Hk;
    try (exists false; split; [done|]; split; [done|]; by intros (s' & [=] & _)).
  rewrite (regex_search_literal q s Hq). eexists. split; [done|].
  rewrite <- contains_ci_search. split.
  - intros H. by exists s.
  - by intros (s' & [= <-] & H).
Qed.

(** C3, as amended. Every non-empty query [q] is used as a case-insensitive
    regular expression searched in [title] and [description]: the filter is
    the [$or] of the two [$regex] conditions on [q] with option [i], and a
    document matches when the search finds [q] in its title or in its
    description. For a [q] without metacharacters the filter matches exactly
    the documents whose title or description contains [q] as a
    case-insensitive substring; without a query the filter is the empty one,
    which matches every document; and of the templates Push Day, Pull Day
    and Leg Day the query Push selects the first only. *)
Theorem template_search :
  (∀ q, q ≠ "" ->
     list_templates_filter (Some q) =
     {[ "$or" := VList
          [ VDict {[ "title" := VDict {[ "$regex" := VStr q; "$options" := VStr "i" ]} ]};
            VDict {[ "description" :=
                       VDict {[ "$regex" := VStr q; "$options" := VStr "i" ]} ]} ] ]})
  ∧ (∀ q doc, q ≠ "" ->
       matches (list_templates_filter (Some q)) doc
       = (in_title ← searched q (doc !! "title");
          in_description ← searched q (doc !! "description");
          Some (in_title || in_description)))
  ∧ (∀ q doc, q ≠ "" -> literal q ->
       ∃ b, matches (list_templates_filter (Some q)) doc = Some b
            ∧ (b = true ↔ mentions doc q))
  ∧ list_templates_filter None = ∅
  ∧ (∀ doc, matches (list_templates_filter None) doc = Some true)
  ∧ select (list_templates_filter (Some "Push")) [push_day; pull_day; leg_day]
    = Some [push_day].
Proof.
  split; [apply list_templates_filter_query|].
  split; [|split; [|split; [done|split; [intros doc; apply matches_empty|]]]].
  - intros q doc Hq. rewrite (matches_query q doc Hq).
    fold (searched q (doc !! "title")). fold (searched q (doc !! "description")).
    destruct (searched q (doc !! "title")) as [bt|]; [|done].
    destruct (searched q (doc !! "description")) as [bd|]; [|done].
    cbn. by rewrite !andb_true_r, orb_false_r.
  - intros q doc Hq Hlit. rewrite (matches_query q doc Hq).
    destruct (field_search q doc "title" Hlit) as (bt & -> & Ht).
    destruct (field_search q doc "description" Hlit) as (bd & -> & Hd).
    exists (bt || bd). split.
    + simpl. by rewrite !andb_true_r, orb_false_r.
    + rewrite orb_true_iff, Ht, Hd. unfold mentions. split.
      * intros [(s & Hs & Hc)|(s & Hs & Hc)]; exists s; eauto.
      * intros (s & [Hs|Hs] & Hc); eauto.
  - vm_compute. reflexivity.
Qed.

(** C10. An empty query builds the same filter as no query: the empty filter,
    which matches every document. *)
Theorem empty_query_matches_all :
  list_templates_filter (Some "") = list_templates_filter None
  ∧ list_templates_filter (Some "") = ∅
  ∧ ∀ doc, matches (list_templates_filter (Some "")) doc = Some true.
Proof.
  split; [reflexivity|split; [reflexivity|]].
  intros doc. change (list_templates_filter (Some "")) with (∅ : dict).
  apply matches_empty.
Qed.

(** The query [.] matches Pull Day, although neither its title nor its
    description contains a full stop: the claim of C3 fails on it. *)
Lemma dot_query_matches_all :
  matches (list_templates_filter (Some ".")) pull_day = Some true
  ∧ ¬ mentions pull_day ".".
Proof.
  split; [vm_compute; reflexivity|].
  intros (s & [Hs|Hs] & Hc).
  - assert (s = "Pull Day") as -> by (vm_compute in Hs; congruence).
    apply contains_ci_search in Hc. vm_compute in Hc. discriminate Hc.
  - vm_compute in Hs. discriminate Hs.
Qed.

Lemma template_search_witness :
  ∃ b, matches (list_templates_filter (Some "push")) push_day = Some b
       ∧ (b = true ↔ mentions push_day "push").
Proof.
  destruct template_search as (_ & _ & Hquery & _).
  apply (Hquery "push" push_day); [discriminate|].
  unfold literal. simpl. repeat constructor.
Defined.

(** ** Bounds *)

Lemma bounds_range (lo hi z : Z) :
  bounds [ge lo; le hi] z
  = ((if (lo <=? z)%Z then [] else [greater_than_equal (Int lo)])
     ++ (if (z <=? hi)%Z then [] else [less_than_equal (Int hi)]))%list.
Proof.
  unfold bounds. rewrite !filter_cons, filter_nil. cbn [satisfies num_leb Z_numeric].
  destruct (lo <=? z)%Z, (z <=? hi)%Z; repeat case_decide; done.
Qed.

Lemma bounds_range_nil (lo hi z : Z) :
  bounds [ge lo; le hi] z = [] ↔ (lo ≤ z ≤ hi)%Z.
Proof.
  rewrite bounds_range.
  destruct (Z.leb_spec lo z), (Z.leb_spec z hi); simpl; split; try done; lia.
Qed.

Lemma bounds_floor (b w : float) :
  bounds [ge b] w = if PrimFloat.leb b w then [] else [greater_than_equal (Float b)].
Proof.
  unfold bounds. rewrite filter_cons, filter_nil. cbn [satisfies num_leb float_numeric].
  destruct (PrimFloat.leb b w); case_decide; done.
Qed.

(** ** Session listing and seeding *)

Lemma owned_by_spec (user_id : string) (doc : dict) :
  owned_by user_id doc = true ↔ doc !! "user_id" = Some (VStr user_id).
Proof.
  unfold owned_by. destruct (doc !! "user_id") as [[| | | |s| | |]|]; try by split.
  rewrite String.eqb_eq. split; [by intros ->|by intros [= ->]].
Qed.

Lemma matches_user (user_id : string) (doc : dict) :
  matches {[ "user_id" := VStr user_id ]} doc = Some (owned_by user_id doc).
Proof.
  unfold matches. rewrite map_to_list_singleton.
  cbn [fmap list_fmap fst snd String.eqb Ascii.eqb Bool.eqb operator matches_condition].
  unfold all_of, owned_by. cbn [mapM id].
  destruct (doc !! "user_id") as [[| | | |s| | |]|]; simpl; try done.
  by rewrite andb_true_r.
Qed.

(** The three [WorkoutTemplate(...)] calls of the source validate, and
    [PREBUILT_TEMPLATES] holds what they construct. *)
Lemma prebuilt_constructed :
  WorkoutTemplate.validate <$> prebuilt_arguments = Valid <$> PREBUILT_TEMPLATES.
Proof. vm_compute. reflexivity. Qed.

Lemma select_matching (filt : dict) (docs sel : list dict) :
  select filt docs = Some sel -> Forall (fun doc => matches filt doc = Some true) sel.
Proof.
  revert sel. induction docs as [|d docs IH]; intros sel; cbn [select].
  - intros [= <-]. constructor.
  - destruct (matches filt d) as [b|] eqn:Hd; [|done].
    destruct (select filt docs) as [rest|]; [|done].
    cbn. intros [= <-]. destruct b; [constructor; [done|]|]; by apply IH.
Qed.

(** The model of the gateway keeps the promise of section 4.4. *)
Lemma sample_get_documents_honours : honours_limit_and_filter sample_get_documents.
Proof.
  intros db name filt limit docs. unfold sample_get_documents, get_documents_model.
  destruct db as [d|]; [|done].
  destruct (select filt (collection d name)) as [sel|] eqn:Hsel; [|done].
  cbn. intros [= <-]. apply select_matching in Hsel. split.
  - intros n ->. rewrite length_take. lia.
  - destruct limit; [by apply Forall_take|done].
Qed.

Section Sessions.

Variable str : value -> string.
Variable get_documents : option database -> string -> dict -> option Z -> result (list dict).
Hypothesis get_documents_honours : honours_limit_and_filter get_documents.

(** C4, as amended. A [limit] outside 1..200 is rejected by the validation
    of the query parameters, not brought into range; with a [limit] within
    1..200, or 50 when none is sent, the handler asks the store for the
    documents whose [user_id] is the one given, capped at that limit, and
    every answer it gives then holds at most that many documents, each with
    exactly that [user_id]. *)
Theorem list_sessions_limit (user_id : string) (db : option database) :
  (∀ n, (n < 1)%Z ->
     list_sessions str get_documents (Given user_id) (Given n) db
     = Unprocessable [([Key "limit"], greater_than_equal (Int 1))])
  ∧ (∀ n, (200 < n)%Z ->
     list_sessions str get_documents (Given user_id) (Given n) db
     = Unprocessable [([Key "limit"], less_than_equal (Int 200))])
  ∧ (∀ limit m,
       (limit = Absent ∧ m = 50%Z) ∨ (limit = Given m ∧ (1 ≤ m ≤ 200)%Z) ->
       list_sessions str get_documents (Given user_id) limit db
       = match get_documents db "workoutsession" {[ "user_id" := VStr user_id ]} (Some m) with
         | Return docs => OK (public_list str docs)
         | Raise e => ServerError e
         end
       ∧ ∀ body,
           list_sessions str get_documents (Given user_id) limit db = OK body ->
           ∃ docs, body = public_list str docs
                   ∧ (Z.of_nat (length docs) ≤ m)%Z
                   ∧ Forall (fun doc => doc !! "user_id" = Some (VStr user_id)) docs
                   ∧ Forall (fun doc => to_public str doc !! "user_id"
                                        = Some (VStr user_id)) docs).
Proof.
  split; [|split].
  - intros n Hn. unfold list_sessions, list_sessions_params.
    cbn [required unconstrained fmap validated_fmap optional].
    unfold checked. rewrite bounds_range.
    destruct (Z.leb_spec 1 n); [lia|]. destruct (Z.leb_spec n 200); [|lia]. done.
  - intros n Hn. unfold list_sessions, list_sessions_params.
    cbn [required unconstrained fmap validated_fmap optional].
    unfold checked. rewrite bounds_range.
    destruct (Z.leb_spec 1 n); [|lia]. destruct (Z.leb_spec n 200); [lia|]. done.
  - intros limit m Hlimit.
    assert (Hm : (1 ≤ m ≤ 200)%Z) by (destruct Hlimit as [[_ ->]|[_ Hm]]; lia).
    assert (Hparams : list_sessions_params (Given user_id) limit
                      = Valid (user_id, Some m)).
    { unfold list_sessions_params.
      cbn [required checked unconstrained fmap validated_fmap].
      destruct Hlimit as [[-> ->]|[-> _]]; [done|].
      cbn [optional]. unfold checked.
      by rewrite (proj2 (bounds_range_nil 1 200 m) Hm). }
    unfold list_sessions. rewrite Hparams. split; [done|].
    intros body.
    destruct (get_documents db "workoutsession" {[ "user_id" := VStr user_id ]} (Some m))
      as [docs|e] eqn:Hget; [|done].
    intros [= <-]. exists docs.
    destruct (get_documents_honours _ _ _ _ _ Hget) as [Hcap Hmatch].
    assert (Howned : Forall (fun doc => doc !! "user_id" = Some (VStr user_id)) docs).
    { eapply Forall_impl; [exact Hmatch|]. intros doc Hdoc. simpl in Hdoc.
      rewrite matches_user in Hdoc. injection Hdoc as Hdoc. by apply owned_by_spec. }
    split; [done|]. split; [specialize (Hcap m eq_refl); lia|]. split; [done|].
    eapply Forall_impl; [exact Howned|].
    intros doc Hdoc. simpl. by rewrite to_public_other.
Qed.

End Sessions.

Section Store.

Variable create_document :
  ∀ A : Type, BaseModel A -> string -> A -> option database -> result value * option database.

(** C5. The code does not do what the claim says. [seed_templates]
    truth-tests the store handle ([if db], line 134) where [test_database]
    compares it with [None] (line 52), and the handle raises on that test:
    on every store that is available, whether its template collection is
    empty or not, seeding answers a server error, calls [create_document]
    not once and leaves the store as it was; it never answers
    [{"seeded": 3}] or [{"seeded": 0}]. *)
Theorem seed_templates_truth_test (d : database) :
  seed_templates create_document (Some d) = (ServerError NotImplementedError, Some d)
  ∧ ¬ ∃ body db', seed_templates create_document (Some d) = (OK body, db').
Proof.
  assert (Hrun : seed_templates create_document (Some d)
                 = (ServerError NotImplementedError, Some d)) by reflexivity.
  split; [exact Hrun|]. intros (body & db' & Hok).
  rewrite Hrun in Hok. discriminate Hok.
Qed.

End Store.

(** A [limit] of 500 is answered with a validation error, where the claim of
    C4 has it lowered to 200; a [limit] of 200 is answered with the two
    sessions of the user. *)
Lemma limit_500_rejected :
  list_sessions sample_str sample_get_documents (Given "u1") (Given 500%Z) (Some sessions_db)
  = Unprocessable [([Key "limit"], less_than_equal (Int 200))]
  ∧ list_sessions sample_str sample_get_documents (Given "u1") (Given 200%Z) (Some sessions_db)
    = OK (public_list sample_str [session_doc 1 "u1" "Push"; session_doc 3 "u1" "Legs"]).
Proof. split; vm_compute; reflexivity. Qed.

Lemma list_sessions_limit_witness :
  ∃ docs,
    list_sessions sample_str sample_get_documents (Given "u1") (Given 1%Z) (Some sessions_db)
    = OK (public_list sample_str docs)
    ∧ (Z.of_nat (length docs) ≤ 1)%Z
    ∧ Forall (fun doc => doc !! "user_id" = Some (VStr "u1")) docs.
Proof.
  destruct (list_sessions_limit sample_str sample_get_documents
              sample_get_documents_honours "u1" (Some sessions_db)) as (_ & _ & Hcap).
  destruct (Hcap (Given 1%Z) 1%Z) as [_ Hbody].
  - right. split; [reflexivity|lia].
  - destruct (Hbody (public_list sample_str [session_doc 1 "u1" "Push"]))
      as (docs & Hdocs & Hlen & Howned & _).
    + vm_compute. reflexivity.
    + exists docs. split; [|split; [exact Hlen|exact Howned]].
      rewrite <- Hdocs. vm_compute. reflexivity.
Defined.

(** On an available store that holds no template, seeding answers a server
    error and inserts nothing, where the claim of C5 has three documents
    inserted and [{"seeded": 3}] answered. *)
Lemma seeding_empty_store_fails :
  seed_templates (create_document_model sample_str) (Some empty_db)
  = (ServerError NotImplementedError, Some empty_db)
  ∧ collection empty_db "workouttemplate" = []
  ∧ ¬ ∃ d', seed_templates (create_document_model sample_str) (Some empty_db)
            = (OK (VDict {[ "seeded" := VInt 3 ]}), Some d').
Proof.
  split; [reflexivity|]. split; [reflexivity|].
  intros (d' & Hok). discriminate Hok.
Qed.

(** ** Validation *)

#[global] Instance unconstrained_decides {A : Type} :
  Decides (@unconstrained A) anything no_bound.
Proof.
  split; intros a; unfold unconstrained, anything, no_bound; [done|].
  intros pr. by rewrite elem_of_nil.
Qed.

#[global] Instance range_decides (lo hi : Z) :
  Decides (bounds [ge lo; le hi]) (within lo hi) (outside lo hi).
Proof.
  split; intros a; [apply bounds_range_nil|].
  intros pr. rewrite bounds_range. unfold outside.
  destruct (Z.leb_spec lo a), (Z.leb_spec a hi); cbn [app];
    rewrite ?elem_of_cons, ?elem_of_nil; naive_solver lia.
Qed.

#[global] Instance floor_decides (b : float) :
  Decides (bounds [ge b]) (at_least b) (below b).
Proof.
  split; intros a; unfold at_least, below; rewrite bounds_floor;
    destruct (PrimFloat.leb b a); try done.
  - intros pr. rewrite elem_of_nil. by split; [|intros [? _]].
  - intros pr. rewrite list_elem_of_singleton. by split; [intros ->|intros [_ ->]].
Qed.

Lemma is_valid_fmap {A B : Type} (g : A -> B) (x : validated A) :
  is_valid (g <$> x) ↔ is_valid x.
Proof. unfold is_valid. destruct x; simpl; split; intros [? [=]]; eauto. Qed.

Lemma is_valid_vap {A B : Type} (f : validated (A -> B)) (x : validated A) :
  is_valid (f <*> x) ↔ is_valid f ∧ is_valid x.
Proof.
  unfold is_valid. destruct f, x; simpl; split;
    try (intros [? [=]]); try (intros [[? [=]] [? [=]]]); eauto.
Qed.

Lemma errors_fmap {A B : Type} (g : A -> B) (x : validated A) :
  errors (g <$> x) = errors x.
Proof. by destruct x. Qed.

Lemma errors_vap {A B : Type} (f : validated (A -> B)) (x : validated A) :
  errors (f <*> x) = (errors f ++ errors x)%list.
Proof. destruct f, x; simpl; by rewrite ?app_nil_r. Qed.

Lemma proper_fmap {A B : Type} (g : A -> B) (x : validated A) :
  proper x -> proper (g <$> x).
Proof. unfold proper. intros H. destruct x; [done|]. intros [= ->]. by destruct H. Qed.

Lemma proper_vap {A B : Type} (f : validated (A -> B)) (x : validated A) :
  proper f -> proper x -> proper (f <*> x).
Proof.
  unfold proper. intros Hf Hx.
  destruct f as [g|[|e es]], x as [a|[|e' es']]; try done.
Qed.

(** A validation either succeeds or names a violation. *)
Lemma proper_cases {A : Type} (x : validated A) :
  proper x -> ¬ is_valid x -> ∃ es, x = Errors es ∧ es ≠ [].
Proof.
  intros Hx Hinvalid. destruct x as [a|es].
  - destruct Hinvalid. by exists a.
  - exists es. split; [done|]. by intros ->.
Qed.

Section Fields.

Context {A : Type} (k : string) (check : A -> list problem).
Context (ok : A -> Prop) (fails : A -> problem -> Prop).
Context `{!Decides check ok fails}.

Lemma is_valid_checked (a : A) : is_valid (checked k check a) ↔ ok a.
Proof.
  rewrite <- (decides_ok (check:=check)). unfold checked, is_valid.
  destruct (check a); split; try done; eauto. by intros [? [=]].
Qed.

Lemma errors_checked (a : A) (v : violation) :
  v ∈ errors (checked k check a) ↔ ∃ pr, v = ([Key k], pr) ∧ fails a pr.
Proof.
  unfold checked. setoid_rewrite <- (decides_fails (check:=check)).
  destruct (check a) as [|p ps] eqn:Hc.
  - simpl. rewrite elem_of_nil. split; [done|]. intros (pr & _ & H).
    by apply elem_of_nil in H.
  - cbn [errors]. unfold report. rewrite list_elem_of_fmap. split.
    + intros (pr & -> & H). eauto.
    + intros (pr & -> & H). eauto.
Qed.

Lemma proper_checked (a : A) : proper (checked k check a).
Proof. unfold proper, checked. by destruct (check a). Qed.

Lemma is_valid_required (r : raw A) :
  is_valid (required k check r) ↔ holds Required ok r.
Proof.
  destruct r; cbn [required holds]; rewrite ?is_valid_checked; try done;
    unfold is_valid; split; try done; by intros [? [=]].
Qed.

Lemma is_valid_optional (dflt : option A) (r : raw A) :
  is_valid (optional k dflt check r) ↔ holds Nullable ok r.
Proof.
  destruct r; cbn [optional holds]; rewrite ?is_valid_fmap, ?is_valid_checked;
    try done; unfold is_valid; split; try done; eauto. by intros [? [=]].
Qed.

Lemma is_valid_defaulted (dflt : A) (r : raw A) :
  is_valid (defaulted k dflt check r) ↔ holds Defaulted ok r.
Proof.
  destruct r; cbn [defaulted holds]; rewrite ?is_valid_checked;
    try done; unfold is_valid; split; try done; eauto; by intros [? [=]].
Qed.

Lemma errors_required (r : raw A) (v : violation) :
  v ∈ errors (required k check r) ↔ field_breaks k Required fails r v.
Proof.
  unfold field_breaks.
  destruct r; cbn [required breaks errors]; rewrite ?errors_checked; try done.
  - unfold report. cbn. rewrite list_elem_of_singleton.
    split; [intros ->; eauto|]. by intros (pr & -> & [_ ->]).
  - unfold report. cbn. rewrite list_elem_of_singleton.
    split; [intros ->; eauto|]. by intros (pr & -> & [_ ->]).
  - unfold report. cbn. rewrite list_elem_of_singleton.
    split; [intros ->; eauto|]. by intros (pr & -> & ->).
Qed.

Lemma errors_optional (dflt : option A) (r : raw A) (v : violation) :
  v ∈ errors (optional k dflt check r) ↔ field_breaks k Nullable fails r v.
Proof.
  unfold field_breaks.
  destruct r; cbn [optional breaks errors];
    rewrite ?errors_fmap, ?errors_checked; try done.
  - rewrite elem_of_nil. split; [done|]. by intros (pr & _ & [? _]).
  - rewrite elem_of_nil. split; [done|]. by intros (pr & _ & [? _]).
  - unfold report. cbn. rewrite list_elem_of_singleton.
    split; [intros ->; eauto|]. by intros (pr & -> & ->).
Qed.

Lemma errors_defaulted (dflt : A) (r : raw A) (v : violation) :
  v ∈ errors (defaulted k dflt check r) ↔ field_breaks k Defaulted fails r v.
Proof.
  unfold field_breaks.
  destruct r; cbn [defaulted breaks errors]; rewrite ?errors_checked; try done.
  - rewrite elem_of_nil. split; [done|]. by intros (pr & _ & [? _]).
  - unfold report. cbn. rewrite list_elem_of_singleton.
    split; [intros ->; eauto|]. by intros (pr & -> & [_ ->]).
  - unfold report. cbn. rewrite list_elem_of_singleton.
    split; [intros ->; eauto|]. by intros (pr & -> & ->).
Qed.

Lemma proper_required (r : raw A) : proper (required k check r).
Proof. destruct r; try done. apply proper_checked. Qed.

Lemma proper_optional (dflt : option A) (r : raw A) : proper (optional k dflt check r).
Proof. destruct r; try done. apply proper_fmap, proper_checked. Qed.

Lemma proper_defaulted (dflt : A) (r : raw A) : proper (defaulted k dflt check r).
Proof. destruct r; try done. apply proper_checked. Qed.

End Fields.

Lemma is_valid_nested {A : Type} (here : list loc_item) (x : validated A) :
  is_valid (nested here x) ↔ is_valid x.
Proof. unfold is_valid. destruct x; simpl; split; intros [? [=]]; eauto. Qed.

Lemma errors_nested {A : Type} (here : list loc_item) (x : validated A) :
  errors (nested here x) = (fun v => ((here ++ v.1)%list, v.2)) <$> errors x.
Proof. by destruct x. Qed.

Lemma proper_nested {A : Type} (here : list loc_item) (x : validated A) :
  proper x -> proper (nested here x).
Proof.
  unfold proper. intros H. destruct x as [a|es]; [done|].
  simpl. intros [= Hes]. apply fmap_nil_inv in Hes. by subst.
Qed.

Section Nested.

Context {P A : Type} (validate : P -> validated A).

Lemma is_valid_items (i : nat) (l : list P) :
  is_valid (items validate i l) ↔ Forall (fun p => is_valid (validate p)) l.
Proof.
  revert i. induction l as [|p l IH]; intros i.
  - split; [by constructor|]. intros _. by exists [].
  - cbn [items]. rewrite is_valid_vap, is_valid_fmap, is_valid_nested, IH.
    by rewrite Forall_cons.
Qed.

Lemma errors_items (i : nat) (l : list P) (v : violation) :
  v ∈ errors (items validate i l)
  ↔ ∃ j p v', l !! j = Some p ∧ v' ∈ errors (validate p)
              ∧ v = ((Idx (i + j) :: v'.1)%list, v'.2).
Proof.
  revert i. induction l as [|p l IH]; intros i.
  - simpl. rewrite elem_of_nil. split; [done|]. by intros (j & p & v' & [=] & _).
  - cbn [items]. rewrite errors_vap, errors_fmap, errors_nested, elem_of_app.
    rewrite list_elem_of_fmap, IH. split.
    + intros [(v' & -> & Hv')|(j & q & v' & Hj & Hv' & ->)].
      * exists 0%nat, p, v'. by rewrite Nat.add_0_r.
      * exists (S j), q, v'. by rewrite Nat.add_succ_r.
    + intros ([|j] & q & v' & Hj & Hv' & ->).
      * left. injection Hj as <-. exists v'. by rewrite Nat.add_0_r.
      * right. exists j, q, v'. by rewrite Nat.add_succ_r.
Qed.

Lemma proper_items (i : nat) (l : list P) :
  (∀ p, proper (validate p)) -> proper (items validate i l).
Proof.
  intros Hp. revert i. induction l as [|p l IH]; intros i; [done|].
  cbn [items]. apply proper_vap; [|apply IH].
  apply proper_fmap, proper_nested, Hp.
Qed.

Lemma is_valid_list_of (k : string) (dflt : list A) (r : raw (list P)) :
  is_valid (list_of validate k (defaulted k dflt unconstrained) r)
  ↔ holds Defaulted (Forall (fun p => is_valid (validate p))) r.
Proof.
  destruct r as [| | |l]; cbn [list_of];
    try (rewrite (is_valid_defaulted k unconstrained anything no_bound); reflexivity).
  cbn [holds].
  rewrite <- (is_valid_items 0 l), <- (is_valid_nested [Key k] (items validate 0 l)).
  destruct (nested [Key k] (items validate 0 l)) as [l'|es]; [|reflexivity].
  split; intros _; by exists l'.
Qed.

Lemma errors_list_of (k : string) (dflt : list A) (r : raw (list P)) (v : violation) :
  v ∈ errors (list_of validate k (defaulted k dflt unconstrained) r)
  ↔ field_breaks k Defaulted no_bound r v
    ∨ in_item k (fun p v' => v' ∈ errors (validate p)) r v.
Proof.
  assert (Hno : ∀ r', r' ≠ Malformed -> r' ≠ Null ->
            ¬ field_breaks k Defaulted (@no_bound (list P)) r' v).
  { intros r' H1 H2 (pr & _ & Hb). destruct r'; simpl in Hb; naive_solver. }
  destruct r as [| | |l]; cbn [list_of].
  - cbn. rewrite elem_of_nil. split; [done|].
    intros [H|(l & i & p & v' & [=] & _)]. by apply Hno in H.
  - rewrite (errors_defaulted k unconstrained anything no_bound). unfold field_breaks.
    cbn. split; [by left|]. by intros [H|(l & i & p & v' & [=] & _)].
  - rewrite (errors_defaulted k unconstrained anything no_bound). unfold field_breaks.
    cbn. split; [by left|]. by intros [H|(l & i & p & v' & [=] & _)].
  - assert (Heq : errors match nested [Key k] (items validate 0 l) with
                         | Valid l' => defaulted k dflt unconstrained (Given l')
                         | Errors es => Errors es
                         end
                  = errors (nested [Key k] (items validate 0 l))).
    { by destruct (nested [Key k] (items validate 0 l)). }
    rewrite Heq, errors_nested, list_elem_of_fmap. setoid_rewrite errors_items.
    unfold in_item. split.
    + intros (v' & -> & j & p & v'' & Hj & Hv'' & ->). right.
      exists l, j, p, v''. by simpl.
    + intros [H|(l' & j & p & v'' & [= <-] & Hj & Hv'' & ->)]; [by apply Hno in H|].
      exists ((Idx j :: v''.1)%list, v''.2). split; [done|].
      exists j, p, v''. by simpl.
Qed.

Lemma proper_list_of (k : string) (dflt : list A) (r : raw (list P)) :
  (∀ p, proper (validate p)) ->
  proper (list_of validate k (defaulted k dflt unconstrained) r).
Proof.
  intros Hp. destruct r as [| | |l]; cbn [list_of]; try apply proper_defaulted.
  pose proof (proper_nested [Key k] _ (proper_items 0 l Hp)) as H.
  destruct (nested [Key k] (items validate 0 l)); [done|exact H].
Qed.

Lemma is_valid_model_of (k : string) (r : raw P) :
  is_valid (model_of validate k (required k unconstrained) r)
  ↔ holds Required (fun p => is_valid (validate p)) r.
Proof.
  destruct r as [| | |p]; cbn [model_of];
    try (rewrite (is_valid_required k unconstrained anything no_bound); reflexivity).
  cbn [holds].
  rewrite <- (is_valid_nested [Key k] (validate p)).
  destruct (nested [Key k] (validate p)) as [a|es]; [|reflexivity].
  split; intros _; by exists a.
Qed.

Lemma errors_model_of (k : string) (r : raw P) (v : violation) :
  v ∈ errors (model_of validate k (required k unconstrained) r)
  ↔ field_breaks k Required no_bound r v
    ∨ in_model k (fun p v' => v' ∈ errors (validate p)) r v.
Proof.
  destruct r as [| | |p]; cbn [model_of];
    try (rewrite (errors_required k unconstrained anything no_bound);
         split; [by left|]; by intros [H|(p & v' & [=] & _)]).
  assert (Heq : errors match nested [Key k] (validate p) with
                       | Valid a => required k unconstrained (Given a)
                       | Errors es => Errors es
                       end
                = errors (nested [Key k] (validate p))).
  { by destruct (nested [Key k] (validate p)). }
  rewrite Heq, errors_nested, list_elem_of_fmap. unfold in_model. split.
  + intros (v' & -> & Hv'). right. exists p, v'. by simpl.
  + intros [(pr & _ & [])|(p' & v' & [= <-] & Hv' & ->)]. by exists v'.
Qed.

Lemma proper_model_of (k : string) (r : raw P) :
  (∀ p, proper (validate p)) ->
  proper (model_of validate k (required k unconstrained) r).
Proof.
  intros Hp. destruct r as [| | |p]; cbn [model_of]; try apply proper_required.
  pose proof (proper_nested [Key k] _ (Hp p)) as H.
  destruct (nested [Key k] (validate p)); [done|exact H].
Qed.

End Nested.

Lemma holds_iff {A : Type} (m : presence) (ok ok' : A -> Prop) (r : raw A) :
  (∀ a, ok a ↔ ok' a) -> holds m ok r ↔ holds m ok' r.
Proof. intros H. destruct r; simpl; [done..|apply H]. Qed.

Lemma in_item_iff {P : Type} (k : string) (f g : P -> violation -> Prop)
    (r : raw (list P)) (v : violation) :
  (∀ p v', f p v' ↔ g p v') -> in_item k f r v ↔ in_item k g r v.
Proof. intros H. unfold in_item. by setoid_rewrite H. Qed.

Lemma in_model_iff {P : Type} (k : string) (f g : P -> violation -> Prop)
    (r : raw P) (v : violation) :
  (∀ p v', f p v' ↔ g p v') -> in_model k f r v ↔ in_model k g r v.
Proof. intros H. unfold in_model. by setoid_rewrite H. Qed.

Lemma errors_Errors {A : Type} (x : validated A) (v : violation) :
  v ∈ errors x -> ∃ es, x = Errors es ∧ v ∈ es.
Proof.
  destruct x as [a|es]; simpl; [|by exists es].
  intros H. by apply elem_of_nil in H.
Qed.

(** *** Exercise *)

Lemma Exercise_valid_iff (p : Exercise.payload) :
  is_valid (Exercise.validate p) ↔ Exercise_conforms p.
Proof.
  unfold Exercise.validate, Exercise_conforms.
  rewrite !is_valid_vap, is_valid_fmap.
  rewrite !is_valid_required, !is_valid_optional;
    try typeclasses eauto. tauto.
Qed.

Lemma Exercise_errors_iff (p : Exercise.payload) (v : violation) :
  v ∈ errors (Exercise.validate p) ↔ Exercise_violation p v.
Proof.
  unfold Exercise.validate, Exercise_violation.
  rewrite !errors_vap, errors_fmap, !elem_of_app.
  rewrite !errors_required, !errors_optional;
    try typeclasses eauto. tauto.
Qed.

Lemma Exercise_proper (p : Exercise.payload) : proper (Exercise.validate p).
Proof.
  unfold Exercise.validate.
  repeat apply proper_vap; try apply proper_fmap;
    first [apply proper_required | apply proper_optional].
Qed.

(** C1. An Exercise payload with a name, [sets] in 1..20, [reps] in 1..100,
    no weight or a weight that is at least 0 and well-formed notes validates,
    to an entity that carries these values; a payload whose [sets] or [reps]
    lies outside its range fails to validate, with the violated bound reported
    at that field. *)
Theorem exercise_bounds (p : Exercise.payload) :
  (∀ nm s r,
     Exercise.raw_name p = Given nm ->
     Exercise.raw_sets p = Given s -> within 1 20 s ->
     Exercise.raw_reps p = Given r -> within 1 100 r ->
     holds Nullable (at_least 0) (Exercise.raw_weight p) ->
     holds Nullable anything (Exercise.raw_notes p) ->
     ∃ e, Exercise.validate p = Valid e
          ∧ Exercise.name e = nm ∧ Exercise.sets e = s ∧ Exercise.reps e = r)
  ∧ (∀ s, Exercise.raw_sets p = Given s -> ¬ within 1 20 s ->
       ∃ es, Exercise.validate p = Errors es
             ∧ ([Key "sets"],
                if (s <? 1)%Z then greater_than_equal (Int 1)
                else less_than_equal (Int 20)) ∈ es)
  ∧ (∀ r, Exercise.raw_reps p = Given r -> ¬ within 1 100 r ->
       ∃ es, Exercise.validate p = Errors es
             ∧ ([Key "reps"],
                if (r <? 1)%Z then greater_than_equal (Int 1)
                else less_than_equal (Int 100)) ∈ es).
Proof.
  split; [|split].
  - intros nm s r Hname Hsets Hs Hreps Hr Hweight Hnotes.
    destruct p as [rn rs rr rw rnt]. simpl in *. subst.
    unfold Exercise.validate. cbn [Exercise.raw_name Exercise.raw_sets Exercise.raw_reps
      Exercise.raw_weight Exercise.raw_notes required].
    unfold checked. cbn [unconstrained].
    rewrite (proj2 (bounds_range_nil 1 20 s) Hs), (proj2 (bounds_range_nil 1 100 r) Hr).
    destruct rw as [| | |w], rnt as [| | |nt]; simpl in Hweight, Hnotes; try done;
      cbn [optional]; unfold checked; cbn [unconstrained];
      rewrite ?bounds_floor, ?Hweight; by eexists.
  - intros s Hsets Hout. apply errors_Errors, Exercise_errors_iff.
    right; left. eexists. split; [done|]. rewrite Hsets. unfold within in Hout.
    cbn [breaks]. unfold outside. destruct (Z.ltb_spec s 1); [by left|right].
    split; [lia|done].
  - intros r Hreps Hout. apply errors_Errors, Exercise_errors_iff.
    right; right; left. eexists. split; [done|]. rewrite Hreps. unfold within in Hout.
    cbn [breaks]. unfold outside. destruct (Z.ltb_spec r 1); [by left|right].
    split; [lia|done].
Qed.

(** *** The other models *)

Lemma WorkoutTemplate_valid_iff (p : WorkoutTemplate.payload) :
  is_valid (WorkoutTemplate.validate p) ↔ WorkoutTemplate_conforms p.
Proof.
  unfold WorkoutTemplate.validate, WorkoutTemplate_conforms.
  rewrite !is_valid_vap, is_valid_fmap.
  rewrite is_valid_required, !is_valid_optional, is_valid_list_of;
    try typeclasses eauto.
  rewrite (holds_iff Defaulted _ (Forall Exercise_conforms)); [tauto|].
  intros l. apply Forall_iff, Exercise_valid_iff.
Qed.

Lemma WorkoutTemplate_errors_iff (p : WorkoutTemplate.payload) (v : violation) :
  v ∈ errors (WorkoutTemplate.validate p) ↔ WorkoutTemplate_violation p v.
Proof.
  unfold WorkoutTemplate.validate, WorkoutTemplate_violation.
  rewrite !errors_vap, errors_fmap, !elem_of_app.
  rewrite errors_required, !errors_optional, errors_list_of;
    try typeclasses eauto.
  rewrite (in_item_iff _ _ Exercise_violation); [tauto|].
  intros e v'. apply Exercise_errors_iff.
Qed.

Lemma WorkoutTemplate_proper (p : WorkoutTemplate.payload) :
  proper (WorkoutTemplate.validate p).
Proof.
  unfold WorkoutTemplate.validate.
  repeat apply proper_vap; try apply proper_fmap;
    first [apply proper_required | apply proper_optional
          | apply proper_list_of, Exercise_proper].
Qed.

Lemma WorkoutSession_valid_iff (p : WorkoutSession.payload) :
  is_valid (WorkoutSession.validate p) ↔ WorkoutSession_conforms p.
Proof.
  unfold WorkoutSession.validate, WorkoutSession_conforms.
  rewrite !is_valid_vap, is_valid_fmap.
  rewrite !is_valid_required, !is_valid_optional, is_valid_list_of;
    try typeclasses eauto.
  rewrite (holds_iff Defaulted _ (Forall Exercise_conforms)); [tauto|].
  intros l. apply Forall_iff, Exercise_valid_iff.
Qed.

Lemma WorkoutSession_errors_iff (p : WorkoutSession.payload) (v : violation) :
  v ∈ errors (WorkoutSession.validate p) ↔ WorkoutSession_violation p v.
Proof.
  unfold WorkoutSession.validate, WorkoutSession_violation.
  rewrite !errors_vap, errors_fmap, !elem_of_app.
  rewrite !errors_required, !errors_optional, errors_list_of;
    try typeclasses eauto.
  rewrite (in_item_iff _ _ Exercise_violation); [tauto|].
  intros e v'. apply Exercise_errors_iff.
Qed.

Lemma WorkoutSession_proper (p : WorkoutSession.payload) :
  proper (WorkoutSession.validate p).
Proof.
  unfold WorkoutSession.validate.
  repeat apply proper_vap; try apply proper_fmap;
    first [apply proper_required | apply proper_optional
          | apply proper_list_of, Exercise_proper].
Qed.

Lemma FoodItem_valid_iff (p : FoodItem.payload) :
  is_valid (FoodItem.validate p) ↔ FoodItem_conforms p.
Proof.
  unfold FoodItem.validate, FoodItem_conforms.
  rewrite !is_valid_vap, is_valid_fmap.
  rewrite !is_valid_required, !is_valid_optional;
    try typeclasses eauto. tauto.
Qed.

Lemma FoodItem_errors_iff (p : FoodItem.payload) (v : violation) :
  v ∈ errors (FoodItem.validate p) ↔ FoodItem_violation p v.
Proof.
  unfold FoodItem.validate, FoodItem_violation.
  rewrite !errors_vap, errors_fmap, !elem_of_app.
  rewrite !errors_required, !errors_optional;
    try typeclasses eauto. tauto.
Qed.

Lemma FoodItem_proper (p : FoodItem.payload) : proper (FoodItem.validate p).
Proof.
  unfold FoodItem.validate.
  repeat apply proper_vap; try apply proper_fmap;
    first [apply proper_required | apply proper_optional].
Qed.

Lemma FoodLog_valid_iff (p : FoodLog.payload) :
  is_valid (FoodLog.validate p) ↔ FoodLog_conforms p.
Proof.
  unfold FoodLog.validate, FoodLog_conforms.
  rewrite !is_valid_vap, is_valid_fmap.
  rewrite !is_valid_required, !is_valid_optional, is_valid_defaulted, is_valid_model_of;
    try typeclasses eauto.
  rewrite (holds_iff Required _ FoodItem_conforms); [tauto|].
  apply FoodItem_valid_iff.
Qed.

Lemma FoodLog_errors_iff (p : FoodLog.payload) (v : violation) :
  v ∈ errors (FoodLog.validate p) ↔ FoodLog_violation p v.
Proof.
  unfold FoodLog.validate, FoodLog_violation.
  rewrite !errors_vap, errors_fmap, !elem_of_app.
  rewrite !errors_required, !errors_optional, errors_defaulted, errors_model_of;
    try typeclasses eauto.
  rewrite (in_model_iff _ _ FoodItem_violation); [tauto|].
  intros i v'. apply FoodItem_errors_iff.
Qed.

Lemma FoodLog_proper (p : FoodLog.payload) : proper (FoodLog.validate p).
Proof.
  unfold FoodLog.validate.
  repeat apply proper_vap; try apply proper_fmap;
    first [apply proper_required | apply proper_optional | apply proper_defaulted
          | apply proper_model_of, FoodItem_proper].
Qed.

(** What a model that does not conform validates to. *)
Lemma rejected {A : Type} (x : validated A) (conforms : Prop)
    (violates : violation -> Prop) :
  proper x -> (is_valid x ↔ conforms) -> (∀ v, v ∈ errors x ↔ violates v) ->
  ¬ conforms -> ∃ es, x = Errors es ∧ es ≠ [] ∧ ∀ v, v ∈ es ↔ violates v.
Proof.
  intros Hproper Hvalid Herrors Hno.
  destruct (proper_cases x Hproper) as (es & -> & Hes); [by rewrite Hvalid|].
  exists es. split; [done|]. split; [done|]. exact Herrors.
Qed.

Section Writes.

Variable create_document :
  ∀ A : Type, BaseModel A -> string -> A -> option database -> result value * option database.

(** C6. A body that breaks a field constraint of its model is rejected by
    each of the three write handlers with a validation error whose entries
    are exactly the violated constraints, each with the location of its
    field, and the store is left as it was, [create_document] not being
    called; and a body validates if and only if every constraint of its model
    holds, so that none is accepted in part. *)
Theorem invalid_payload_rejected (db : option database) :
  (∀ p, ¬ WorkoutTemplate_conforms p ->
     ∃ es, create_template create_document p db = (Unprocessable es, db) ∧ es ≠ []
           ∧ ∀ v, v ∈ es ↔ WorkoutTemplate_violation p v)
  ∧ (∀ p, ¬ WorkoutSession_conforms p ->
     ∃ es, create_session create_document p db = (Unprocessable es, db) ∧ es ≠ []
           ∧ ∀ v, v ∈ es ↔ WorkoutSession_violation p v)
  ∧ (∀ p, ¬ FoodLog_conforms p ->
     ∃ es, create_food_log create_document p db = (Unprocessable es, db) ∧ es ≠ []
           ∧ ∀ v, v ∈ es ↔ FoodLog_violation p v)
  ∧ (∀ p, is_valid (WorkoutTemplate.validate p) ↔ WorkoutTemplate_conforms p)
  ∧ (∀ p, is_valid (WorkoutSession.validate p) ↔ WorkoutSession_conforms p)
  ∧ (∀ p, is_valid (FoodLog.validate p) ↔ FoodLog_conforms p).
Proof.
  split; [|split; [|split; [|split; [|split]]]];
    [| | |apply WorkoutTemplate_valid_iff|apply WorkoutSession_valid_iff
     |apply FoodLog_valid_iff].
  - intros p Hno.
    destruct (rejected _ _ _ (WorkoutTemplate_proper p) (WorkoutTemplate_valid_iff p)
                (WorkoutTemplate_errors_iff p) Hno) as (es & Hes & Hne & Hv).
    exists es. unfold create_template. by rewrite Hes.
  - intros p Hno.
    destruct (rejected _ _ _ (WorkoutSession_proper p) (WorkoutSession_valid_iff p)
                (WorkoutSession_errors_iff p) Hno) as (es & Hes & Hne & Hv).
    exists es. unfold create_session. by rewrite Hes.
  - intros p Hno.
    destruct (rejected _ _ _ (FoodLog_proper p) (FoodLog_valid_iff p)
                (FoodLog_errors_iff p) Hno) as (es & Hes & Hne & Hv).
    exists es. unfold create_food_log. by rewrite Hes.
Qed.

End Writes.

Lemma exercise_bounds_witness :
  (∃ e, Exercise.validate bench_press = Valid e ∧ Exercise.sets e = 4%Z)
  ∧ (∃ es, Exercise.validate no_sets = Errors es
           ∧ ([Key "sets"], greater_than_equal (Int 1)) ∈ es).
Proof.
  split.
  - destruct (exercise_bounds bench_press) as [Hvalid _].
    assert (H20 : within 1 20 4) by (unfold within; lia).
    assert (H100 : within 1 100 8) by (unfold within; lia).
    assert (Hnotes : holds Nullable (@anything string) Absent) by discriminate.
    destruct (Hvalid "Bench Press" 4%Z 8%Z eq_refl eq_refl H20 eq_refl H100 eq_refl Hnotes)
      as (e & He & _ & Hsets & _).
    exists e. split; [exact He|exact Hsets].
  - destruct (exercise_bounds no_sets) as (_ & Hsets & _).
    apply (Hsets 0%Z); [reflexivity|]. unfold within. lia.
Defined.

(** A log entry of quantity 0.05 is rejected and nothing is stored; the
    same entry with quantity 0.1 validates. *)
Lemma invalid_payload_rejected_witness :
  (∃ es, create_food_log (create_document_model sample_str) small_log (Some empty_db)
         = (Unprocessable es, Some empty_db)
         ∧ es ≠ [])
  ∧ is_valid (FoodLog.validate tenth_log).
Proof.
  destruct (invalid_payload_rejected (create_document_model sample_str) (Some empty_db))
    as (_ & _ & Hlog & _ & _ & Hvalid).
  split.
  - destruct (Hlog small_log) as (es & Hes & Hne & _).
    + intros (_ & _ & _ & _ & Hq). vm_compute in Hq. discriminate Hq.
    + exists es. split; [exact Hes|exact Hne].
  - apply Hvalid. repeat split; try discriminate.
Defined.

(** * Further properties *)

(** ** The items of the nutrition endpoints *)

Lemma for_each_Return {A B : Type} (f : A -> result B) (l : list A) (bs : list B) :
  for_each f l = Return bs ↔ Forall2 (fun a b => f a = Return b) l bs.
Proof.
  revert bs. induction l as [|a l IH]; intros bs; cbn [for_each].
  - split; [intros [= <-]; constructor|]. by intros ->%Forall2_nil_inv_l.
  - split.
    + intros H. apply bind_Return_inv in H as (b & Hb & H).
      apply bind_Return_inv in H as (bs' & Hbs & [= <-]).
      constructor; [done|]. by apply IH.
    + intros H. apply Forall2_cons_inv_l in H as (b & bs' & Hb & Hbs & ->).
      rewrite Hb. cbn. apply IH in Hbs. by rewrite Hbs.
Qed.

Lemma for_each_Raise {A B : Type} (f : A -> result B) (l : list A) (i : nat) (a : A)
    (e : exn) :
  l !! i = Some a -> f a = Raise e ->
  (∀ j b, (j < i)%nat -> l !! j = Some b -> ∃ c, f b = Return c) ->
  for_each f l = Raise e.
Proof.
  revert i. induction l as [|x l IH]; intros i Hi Ha Hbefore; [done|].
  cbn [for_each]. destruct i as [|i].
  - injection Hi as ->. by rewrite Ha.
  - destruct (Hbefore 0%nat x) as [c ->]; [lia|done|]. cbn.
    rewrite (IH i); [done|done|done|].
    intros j b Hj Hb. apply (Hbefore (S j) b); [lia|done].
Qed.

Lemma results_inj (v w : value) :
  OK (VDict {[ "results" := v ]}) = OK (VDict {[ "results" := w ]}) -> v = w.
Proof.
  intros H.
  assert (Hm : ({[ "results" := v ]} : dict) = {[ "results" := w ]}) by congruence.
  apply (f_equal (fun m : dict => m !! "results")) in Hm.
  rewrite !lookup_singleton_eq in Hm. congruence.
Qed.

Section Items.

Variable float_of_str : string -> option float.

Lemma normalize_nutriments (p item : dict) :
  normalize float_of_str (VDict p) = Return item -> ∃ n, nutriments_of p = VDict n.
Proof.
  unfold normalize, nutriments_of. cbn -[py_float py_or float_or_zero].
  destruct (default (VDict ∅) (p !! "nutriments")); try discriminate. eauto.
Qed.

(** A successful normalisation, entry by entry. *)
Lemma normalize_item (p item : dict) :
  normalize float_of_str (VDict p) = Return item ->
  ∃ n calories protein carbs fat,
    nutriments_of p = VDict n
    ∧ float_or_zero float_of_str
        (py_or (default VNone (n !! "energy-kcal_100g"))
               (default VNone (n !! "energy-kcal_serving"))) = Return calories
    ∧ py_float float_of_str
        (py_or (default (VInt 0) (n !! "proteins_100g")) (VInt 0)) = Return protein
    ∧ py_float float_of_str
        (py_or (default (VInt 0) (n !! "carbohydrates_100g")) (VInt 0)) = Return carbs
    ∧ py_float float_of_str
        (py_or (default (VInt 0) (n !! "fat_100g")) (VInt 0)) = Return fat
    ∧ item = {[ "barcode" := default VNone (p !! "code");
                "name" := py_or (py_or (default VNone (p !! "product_name"))
                                       (default VNone (p !! "generic_name")))
                                (VStr "Unknown");
                "brand" := default VNone (p !! "brands");
                "calories" := calories;
                "protein" := VFloat protein;
                "carbs" := VFloat carbs;
                "fat" := VFloat fat;
                "serving_size" := default VNone (p !! "serving_size") ]}.
Proof.
  intros Hrun. destruct (normalize_nutriments p item Hrun) as [n Hn].
  rewrite (normalize_dict float_of_str p n Hn) in Hrun.
  apply bind_Return_inv in Hrun as (calories & Hc & Hrun).
  apply bind_Return_inv in Hrun as (protein & Hp & Hrun).
  apply bind_Return_inv in Hrun as (carbs & Hcarbs & Hrun).
  apply bind_Return_inv in Hrun as (fat & Hfat & Hrun).
  injection Hrun as <-. by exists n, calories, protein, carbs, fat.
Qed.

(** X1. The name of an item is the product name when that is truthy, else
    the generic name when that is truthy, else ["Unknown"]; it is never
    empty or [None]. *)
Theorem item_name (p item : dict) :
  normalize float_of_str (VDict p) = Return item ->
  ∃ name,
    item !! "name" = Some name ∧ truthy name = true
    ∧ (∀ v, p !! "product_name" = Some v -> truthy v = true -> name = v)
    ∧ (truthy (default VNone (p !! "product_name")) = false ->
       (∀ v, p !! "generic_name" = Some v -> truthy v = true -> name = v)
       ∧ (truthy (default VNone (p !! "generic_name")) = false ->
          name = VStr "Unknown")).
Proof.
  intros Hrun.
  destruct (normalize_item p item Hrun) as (n & c & pr & ca & fa & _ & _ & _ & _ & _ & ->).
  eexists. split; [reflexivity|]. unfold py_or.
  destruct (truthy (default VNone (p !! "product_name"))) eqn:Hpn.
  - rewrite Hpn. split; [done|]. split; [|done].
    intros v Hv _. by rewrite Hv.
  - destruct (truthy (default VNone (p !! "generic_name"))) eqn:Hgn.
    + rewrite Hgn. split; [done|]. split.
      * intros v Hv Ht. rewrite Hv in Hpn. simpl in Hpn. congruence.
      * intros _. split; [|done]. intros v Hv _. by rewrite Hv.
    + split; [done|]. split.
      * intros v Hv Ht. rewrite Hv in Hpn. simpl in Hpn. congruence.
      * intros _. split; [|done]. intros v Hv Ht. rewrite Hv in Hgn. simpl in Hgn.
        congruence.
Qed.

(** X2. Each macro entry of an item is a float: the float of the per-100g
    value when that is truthy, and 0.0 when it is absent, null, zero or
    empty. *)
Theorem item_macros (p n item : dict) :
  nutriments_of p = VDict n ->
  normalize float_of_str (VDict p) = Return item ->
  ∀ source target, (source, target) ∈ macro_fields ->
    ∃ f, item !! target = Some (VFloat f)
         ∧ (∀ v, n !! source = Some v -> truthy v = true ->
              py_float float_of_str v = Return f)
         ∧ (truthy (default VNone (n !! source)) = false -> f = 0%float).
Proof.
  intros Hn Hrun source target Hin.
  destruct (normalize_item p item Hrun) as (n' & c & pr & ca & fa & Hn' & _ & Hp & Hc & Hf & ->).
  assert (n' = n) as -> by congruence.
  assert (Hmacro : ∀ o f,
            py_float float_of_str (py_or (default (VInt 0) o) (VInt 0)) = Return f ->
            (∀ v, o = Some v -> truthy v = true -> py_float float_of_str v = Return f)
            ∧ (truthy (default VNone o) = false -> f = 0%float)).
  { intros o f Hof. unfold py_or in Hof. destruct o as [v|]; simpl in *.
    - destruct (truthy v) eqn:Hv.
      + split; [by intros ? [= <-] _|done].
      + split; [intros ? [= <-]; congruence|]. intros _. by injection Hof as <-.
    - split; [done|]. intros _. by injection Hof as <-. }
  unfold macro_fields in Hin. rewrite !elem_of_cons, elem_of_nil in Hin.
  destruct Hin as [[= -> ->]|[[= -> ->]|[[= -> ->]|[]]]].
  - exists pr. split; [reflexivity|]. by apply Hmacro.
  - exists ca. split; [reflexivity|]. by apply Hmacro.
  - exists fa. split; [reflexivity|]. by apply Hmacro.
Qed.

(** X3. An item has exactly the eight keys of a FoodItem; its barcode, brand
    and serving size are the product's [code], [brands] and [serving_size],
    or [None] where the product has none, and its calories is the integer 0
    or a float. *)
Theorem item_shape (p item : dict) :
  normalize float_of_str (VDict p) = Return item ->
  dom item = item_keys
  ∧ item !! "barcode" = Some (default VNone (p !! "code"))
  ∧ item !! "brand" = Some (default VNone (p !! "brands"))
  ∧ item !! "serving_size" = Some (default VNone (p !! "serving_size"))
  ∧ ∃ c, item !! "calories" = Some c ∧ zero_or_float c.
Proof.
  intros Hrun.
  destruct (normalize_item p item Hrun) as (n & c & pr & ca & fa & _ & Hc & _ & _ & _ & ->).
  split; [|split; [done|split; [done|split; [done|]]]].
  - rewrite !dom_insert_L, dom_singleton_L. unfold item_keys. set_solver.
  - exists c. split; [done|]. unfold zero_or_float.
    apply coerced_inv in Hc as [[_ ->]|(_ & f & _ & ->)]; eauto.
Qed.

(** X4. [search_food] answers one item per product, in the order of the
    products, when every product normalises; the first product that does
    not turns the whole answer into a server error, with no partial results;
    a body without [products] gives an empty list. *)
Theorem search_food_results (data : dict) :
  (∀ ps, data !! "products" = Some (VList ps) ->
     (∀ items,
        Forall2 (fun p item => normalize float_of_str p = Return item) ps items
        ↔ search_food float_of_str (Return (VDict data))
          = OK (VDict {[ "results" := VList (VDict <$> items) ]}))
     ∧ (∀ i p e,
          ps !! i = Some p -> normalize float_of_str p = Raise e ->
          (∀ j q, (j < i)%nat -> ps !! j = Some q ->
             ∃ item, normalize float_of_str q = Return item) ->
          search_food float_of_str (Return (VDict data)) = ServerError e))
  ∧ (data !! "products" = None ->
     search_food float_of_str (Return (VDict data))
     = OK (VDict {[ "results" := VList [] ]})).
Proof.
  split.
  - intros ps Hps. unfold search_food. cbn -[normalize singletonM]. rewrite Hps.
    cbn -[normalize singletonM]. split.
    + intros items. rewrite <- for_each_Return. split.
      * by intros ->.
      * destruct (for_each (normalize float_of_str) ps) as [items'|e]; [|done].
        cbn -[singletonM]. intros H%results_inj. f_equal.
        assert (Hl : VDict <$> items' = VDict <$> items) by congruence.
        revert Hl. apply list_fmap_eq_inj. by intros x y [= ->].
    + intros i p e Hi Hp Hbefore.
      by rewrite (for_each_Raise _ ps i p e Hi Hp Hbefore).
  - intros Hnone. unfold search_food. cbn -[normalize singletonM]. by rewrite Hnone.
Qed.

(** X5. The two nutrition endpoints normalise alike: for a product record
    that is truthy, [food_by_barcode] answers an item exactly when
    [search_food], given that product alone, answers the list of that
    item. *)
Theorem barcode_agrees_with_search (data data' : dict) (p : value) (item : dict) :
  data !! "product" = Some p -> truthy p = true ->
  data' !! "products" = Some (VList [p]) ->
  food_by_barcode float_of_str (Return (VDict data)) = OK (VDict item)
  ↔ search_food float_of_str (Return (VDict data'))
    = OK (VDict {[ "results" := VList [VDict item] ]}).
Proof.
  intros Hp Ht Hps. unfold food_by_barcode, search_food.
  cbn -[normalize singletonM]. rewrite Hp, Hps. cbn -[normalize singletonM].
  unfold py_or. rewrite Ht.
  destruct (normalize float_of_str p) as [item'|e]; cbn -[singletonM]; [|done].
  split.
  - by intros [= ->].
  - intros H%results_inj. congruence.
Qed.

End Items.

Lemma item_name_witness :
  ∃ name, generic_item !! "name" = Some name ∧ name = VStr "Rolled oats".
Proof.
  destruct (item_name sample_float_of_str generic_product generic_item)
    as (name & Hname & _ & _ & Hgeneric); [vm_compute; reflexivity|].
  exists name. split; [done|].
  destruct Hgeneric as [Hg _]; [reflexivity|]. apply Hg; reflexivity.
Defined.

Lemma item_macros_witness :
  ∃ f, generic_item !! "fat" = Some (VFloat f) ∧ f = 0%float.
Proof.
  destruct (item_macros sample_float_of_str generic_product
              {[ "proteins_100g" := VFloat 13; "fat_100g" := VInt 0 ]} generic_item)
    with (source := "fat_100g") (target := "fat") as (f & Hf & _ & Hzero).
  - vm_compute; reflexivity.
  - vm_compute; reflexivity.
  - unfold macro_fields. repeat constructor.
  - exists f. split; [done|]. apply Hzero. reflexivity.
Defined.

Lemma item_shape_witness :
  dom spread_item = item_keys
  ∧ spread_item !! "barcode" = Some (VStr "3017620422003")
  ∧ spread_item !! "brand" = Some VNone
  ∧ spread_item !! "serving_size" = Some VNone
  ∧ ∃ c, spread_item !! "calories" = Some c ∧ zero_or_float c.
Proof.
  apply (item_shape sample_float_of_str sample_product spread_item).
  vm_compute; reflexivity.
Defined.

Lemma search_food_results_witness :
  search_food sample_float_of_str (Return (VDict broken_search)) = ServerError TypeError.
Proof.
  destruct (search_food_results sample_float_of_str broken_search) as [Hsome _].
  destruct (Hsome [VDict generic_product; VDict broken_product; VDict sample_product])
    as [_ Hfail]; [reflexivity|].
  apply (Hfail 1%nat (VDict broken_product)); [reflexivity|vm_compute; reflexivity|].
  intros j q Hj Hq. destruct j as [|j]; [|lia]. injection Hq as <-.
  exists generic_item. vm_compute; reflexivity.
Defined.

Lemma barcode_agrees_with_search_witness :
  search_food sample_float_of_str
    (Return (VDict {[ "products" := VList [VDict sample_product] ]}))
  = OK (VDict {[ "results" := VList [VDict spread_item] ]}).
Proof.
  apply (barcode_agrees_with_search sample_float_of_str
           {[ "product" := VDict sample_product ]}
           {[ "products" := VList [VDict sample_product] ]}
           (VDict sample_product) spread_item); [reflexivity..|].
  vm_compute; reflexivity.
Defined.

(** ** The diagnostics endpoint *)

(** X6. The report of [test_database] always has the same six keys, and its
    [database] entry never keeps its initial text: it tells apart a missing
    handle, a handle whose listing fails and a working one, while
    [connection_status] and [database_name] tell whether there is a
    handle. *)
Theorem test_database_report (db : option handle) (database_url : option string) :
  dom (test_database db database_url) = report_keys
  ∧ test_database db database_url !! "database" ≠ Some (VStr "❌ Not Available")
  ∧ (test_database db database_url !! "database" = Some (VStr "✅ Connected & Working")
     ↔ ∃ h names, db = Some h ∧ list_collection_names h = Names names)
  ∧ (test_database db database_url !! "database"
     = Some (VStr "⚠️ Available but not initialized") ↔ db = None)
  ∧ (test_database db database_url !! "connection_status" = Some (VStr "Connected")
     ↔ is_Some db)
  ∧ (∀ h, db = Some h ->
       test_database db database_url !! "database_name" = Some (VStr (handle_name h))).
Proof.
  destruct db as [[name [names|shown]]|]; unfold test_database;
    cbn [list_collection_names handle_name].
  - split; [|split; [|split; [|split; [|split]]]].
    + rewrite !dom_insert_L, dom_singleton_L. unfold report_keys. set_solver.
    + done.
    + split; [intros _; by eexists _, _|done].
    + split; done.
    + split; [by eexists|done].
    + by intros h [= <-].
  - split; [|split; [|split; [|split; [|split]]]].
    + rewrite !dom_insert_L, dom_singleton_L. unfold report_keys. set_solver.
    + rewrite lookup_insert_eq. cbn. intros [=].
    + rewrite lookup_insert_eq. split; [cbn; intros [=]|].
      by intros (h & names & [= <-] & [=]).
    + rewrite lookup_insert_eq. split; [cbn; intros [=]|done].
    + split; [by eexists|done].
    + by intros h [= <-].
  - split; [|split; [|split; [|split; [|split]]]].
    + rewrite !dom_insert_L, dom_singleton_L. unfold report_keys. set_solver.
    + done.
    + split; [done|]. by intros (h & names & [=] & _).
    + done.
    + split; [done|]. by intros [h [=]].
    + by intros h [=].
Qed.

Lemma test_database_report_witness :
  test_database (Some busy_handle) None !! "database_name" = Some (VStr "tracker")
  ∧ test_database (Some busy_handle) None !! "database"
    = Some (VStr "✅ Connected & Working").
Proof.
  destruct (test_database_report (Some busy_handle) None)
    as (_ & _ & Hworking & _ & _ & Hname).
  split; [by apply (Hname busy_handle)|].
  apply Hworking. by eexists _, _.
Defined.

(** X7. The report lists at most ten collections: the first ten names the
    store gives, and none when there is no handle or the listing fails. *)
Theorem test_database_collections (db : option handle) (database_url : option string) :
  ∃ cs, test_database db database_url !! "collections" = Some (VList (VStr <$> cs))
        ∧ (length cs ≤ 10)%nat
        ∧ (∀ h names, db = Some h -> list_collection_names h = Names names ->
             cs = take 10 names)
        ∧ (∀ h shown, db = Some h -> list_collection_names h = Failure shown -> cs = [])
        ∧ (db = None -> cs = []).
Proof.
  destruct db as [[name [names|shown]]|]; unfold test_database;
    cbn [list_collection_names handle_name].
  - exists (take 10 names). split; [done|]. split; [rewrite length_take; lia|].
    split; [|split; [|done]].
    + intros h names' [= <-]. cbn. by intros [= <-].
    + intros h shown [= <-]. by cbn.
  - exists []. split; [done|]. split; [cbn; lia|]. split; [|done].
    intros h names' [= <-]. by cbn.
  - exists []. split; [done|]. split; [cbn; lia|]. done.
Qed.

Lemma test_database_collections_witness :
  ∃ cs, test_database (Some busy_handle) None !! "collections" = Some (VList (VStr <$> cs))
        ∧ length cs = 10%nat.
Proof.
  destruct (test_database_collections (Some busy_handle) None)
    as (cs & Hcs & _ & Hnames & _).
  exists cs. split; [done|].
  by rewrite (Hnames busy_handle _ eq_refl eq_refl).
Defined.

(** ** The read handlers *)

Section Listings.

Variable str : value -> string.
Variable get_documents : option database -> string -> dict -> option Z -> result (list dict).

Lemma public_list_items (docs : list dict) :
  ∃ items, public_list str docs = VList (VDict <$> items)
           ∧ length items = length docs
           ∧ Forall (fun item => item !! "_id" = None) items.
Proof.
  exists (to_public str <$> docs). split; [|split].
  - unfold public_list. by rewrite <- list_fmap_compose.
  - by rewrite length_fmap.
  - apply Forall_fmap, Forall_forall. intros doc _. apply to_public_drops_id.
Qed.

(** X8. Whatever the store returns, the body of a successful answer of
    [list_templates], [list_sessions] and [list_food_logs] is a list of
    documents none of which has an ["_id"] field. *)
Theorem listings_are_public (db : option database) (body : value) :
  (∃ q, list_templates str get_documents q db = OK body)
  ∨ (∃ user_id limit, list_sessions str get_documents user_id limit db = OK body)
  ∨ (∃ user_id log_date, list_food_logs str get_documents user_id log_date db = OK body) ->
  ∃ items, body = VList (VDict <$> items)
           ∧ Forall (fun item => item !! "_id" = None) items.
Proof.
  assert (Hlist : ∀ r : result (list dict),
            match r with
            | Return docs => OK (public_list str docs)
            | Raise e => ServerError e
            end = OK body ->
            ∃ items, body = VList (VDict <$> items)
                     ∧ Forall (fun item => item !! "_id" = None) items).
  { intros [docs|e]; [|done]. intros [= <-].
    destruct (public_list_items docs) as (items & -> & _ & Hno). by exists items. }
  intros [[q H]|[(user_id & limit & H)|(user_id & log_date & H)]].
  - unfold list_templates in H. by apply Hlist in H.
  - unfold list_sessions in H.
    destruct (list_sessions_params user_id limit) as [[u l]|es]; [|done].
    by apply Hlist in H.
  - unfold list_food_logs in H.
    destruct (list_food_logs_params user_id log_date) as [[u l]|es]; [|done].
    by apply Hlist in H.
Qed.

End Listings.

Lemma listings_are_public_witness :
  ∃ items,
    list_sessions sample_str sample_get_documents (Given "u1") Absent (Some sessions_db)
    = OK (VList (VDict <$> items))
    ∧ Forall (fun item => item !! "_id" = None) items.
Proof.
  destruct (listings_are_public sample_str sample_get_documents (Some sessions_db)
              (public_list sample_str [session_doc 1 "u1" "Push"; session_doc 3 "u1" "Legs"]))
    as (items & Hbody & Hno).
  - right; left. exists (Given "u1"), Absent. vm_compute; reflexivity.
  - exists items. split; [|done]. rewrite <- Hbody. vm_compute; reflexivity.
Defined.





Section FoodLogs.

Variable str : value -> string.
Variable get_documents : option database -> string -> dict -> option Z -> result (list dict).
Hypothesis get_documents_honours : honours_limit_and_filter get_documents.


End FoodLogs.


(** ** The write handlers *)


Section Stored.

Variable create_document :
  ∀ A : Type, BaseModel A -> string -> A -> option database -> result value * option database.



End Stored.


(** ** The validated entities *)

Lemma fmap_Valid_inv {A B : Type} (g : A -> B) (x : validated A) (b : B) :
  g <$> x = Valid b -> ∃ a, x = Valid a ∧ b = g a.
Proof. destruct x as [a|es]; [|done]. intros [= <-]. by exists a. Qed.

Lemma vap_Valid_inv {A B : Type} (f : validated (A -> B)) (x : validated A) (b : B) :
  f <*> x = Valid b -> ∃ g a, f = Valid g ∧ x = Valid a ∧ b = g a.
Proof. destruct f as [g|es], x as [a|es']; try done. intros [= <-]. by exists g, a. Qed.

Lemma checked_Valid_inv {A : Type} (k : string) (check : A -> list problem) (a b : A) :
  checked k check a = Valid b -> b = a ∧ check a = [].
Proof. unfold checked. destruct (check a); [by intros [= <-]|done]. Qed.

Lemma required_Valid_inv {A : Type} (k : string) (check : A -> list problem) (r : raw A)
    (a : A) :
  required k check r = Valid a -> r = Given a ∧ check a = [].
Proof.
  destruct r as [| | |a']; try done. cbn [required].
  by intros [-> H]%checked_Valid_inv.
Qed.

Lemma optional_Valid_inv {A : Type} (k : string) (dflt : option A)
    (check : A -> list problem) (r : raw A) (o : option A) :
  optional k dflt check r = Valid o ->
  carries_optional dflt r o ∧ ∀ a, r = Given a -> check a = [].
Proof.
  destruct r as [| | |a']; cbn [optional carries_optional]; try done.
  - by intros [= <-].
  - by intros [= <-].
  - intros (b & [-> H]%checked_Valid_inv & ->)%fmap_Valid_inv. split; [done|].
    by intros a [= <-].
Qed.

Lemma defaulted_Valid_inv {A : Type} (k : string) (dflt : A) (check : A -> list problem)
    (r : raw A) (a : A) :
  defaulted k dflt check r = Valid a ->
  carries_defaulted dflt r a ∧ ∀ a', r = Given a' -> check a' = [].
Proof.
  destruct r as [| | |a']; cbn [defaulted carries_defaulted]; try done.
  - by intros [= <-].
  - intros [-> H]%checked_Valid_inv. split; [done|]. by intros a'' [= <-].
Qed.

Lemma nested_Valid_inv {A : Type} (here : list loc_item) (x : validated A) (a : A) :
  nested here x = Valid a -> x = Valid a.
Proof. by destruct x. Qed.

Lemma items_Valid {P A : Type} (validate : P -> validated A) (i : nat) (l : list P)
    (es : list A) :
  items validate i l = Valid es ↔ Forall2 (fun p a => validate p = Valid a) l es.
Proof.
  revert i es. induction l as [|p l IH]; intros i es; cbn [items].
  - split; [intros [= <-]; constructor|]. by intros ->%Forall2_nil_inv_l.
  - split.
    + intros (g & tl & (a & Ha%nested_Valid_inv & ->)%fmap_Valid_inv & Htl & ->)%vap_Valid_inv.
      constructor; [done|]. by apply (IH (S i)).
    + intros (a & tl & Ha & Htl & ->)%Forall2_cons_inv_l.
      rewrite Ha. apply (IH (S i)) in Htl. by rewrite Htl.
Qed.

Lemma list_of_Valid_inv {P A : Type} (validate : P -> validated A) (k : string)
    (r : raw (list P)) (l : list A) :
  list_of validate k (defaulted k [] unconstrained) r = Valid l -> carries_items validate r l.
Proof.
  destruct r as [| | |ps]; cbn [list_of defaulted carries_items]; try done.
  - by intros [= <-].
  - destruct (items validate 0 ps) as [l'|es] eqn:Hitems; cbn [nested]; [|done].
    intros [-> _]%checked_Valid_inv. by apply items_Valid in Hitems.
Qed.

Lemma model_of_Valid_inv {P A : Type} (validate : P -> validated A) (k : string)
    (r : raw P) (a : A) :
  model_of validate k (required k unconstrained) r = Valid a ->
  ∃ p, r = Given p ∧ validate p = Valid a.
Proof.
  destruct r as [| | |p]; cbn [model_of required]; try done.
  destruct (validate p) as [a'|es] eqn:Hp; cbn [nested]; [|done].
  intros [-> _]%checked_Valid_inv. by exists p.
Qed.

Lemma floor_nil (b w : float) : bounds [ge b] w = [] -> at_least b w.
Proof. rewrite bounds_floor. unfold at_least. by destruct (PrimFloat.leb b w). Qed.

Lemma carried_non_negative (dflt : option float) (r : raw float) (o : option float) :
  non_negative dflt -> carries_optional dflt r o ->
  (∀ a, r = Given a -> bounds [ge 0%float] a = []) -> non_negative o.
Proof.
  intros Hdflt Hcarries Hcheck w ->. destruct r as [| | |a]; cbn in Hcarries; try done.
  - by apply Hdflt.
  - injection Hcarries as <-. by apply floor_nil, Hcheck.
Qed.

Ltac fields H :=
  repeat (apply vap_Valid_inv in H as (? & ? & H & ? & ->));
  apply fmap_Valid_inv in H as (? & ? & ->).

Lemma Exercise_fields (p : Exercise.payload) (e : Exercise.t) :
  Exercise.validate p = Valid e ->
  required "name" unconstrained (Exercise.raw_name p) = Valid (Exercise.name e)
  ∧ required "sets" (bounds [ge 1; le 20]%Z) (Exercise.raw_sets p) = Valid (Exercise.sets e)
  ∧ required "reps" (bounds [ge 1; le 100]%Z) (Exercise.raw_reps p) = Valid (Exercise.reps e)
  ∧ optional "weight" None (bounds [ge 0%float]) (Exercise.raw_weight p)
    = Valid (Exercise.weight e)
  ∧ optional "notes" None unconstrained (Exercise.raw_notes p) = Valid (Exercise.notes e).
Proof. unfold Exercise.validate. intros H. fields H. by cbn. Qed.

Lemma FoodItem_fields (p : FoodItem.payload) (i : FoodItem.t) :
  FoodItem.validate p = Valid i ->
  optional "barcode" None unconstrained (FoodItem.raw_barcode p) = Valid (FoodItem.barcode i)
  ∧ required "name" unconstrained (FoodItem.raw_name p) = Valid (FoodItem.name i)
  ∧ optional "brand" None unconstrained (FoodItem.raw_brand p) = Valid (FoodItem.brand i)
  ∧ required "calories" (bounds [ge 0%float]) (FoodItem.raw_calories p)
    = Valid (FoodItem.calories i)
  ∧ optional "protein" (Some 0%float) (bounds [ge 0%float]) (FoodItem.raw_protein p)
    = Valid (FoodItem.protein i)
  ∧ optional "carbs" (Some 0%float) (bounds [ge 0%float]) (FoodItem.raw_carbs p)
    = Valid (FoodItem.carbs i)
  ∧ optional "fat" (Some 0%float) (bounds [ge 0%float]) (FoodItem.raw_fat p)
    = Valid (FoodItem.fat i)
  ∧ optional "serving_size" None unconstrained (FoodItem.raw_serving_size p)
    = Valid (FoodItem.serving_size i).
Proof. unfold FoodItem.validate. intros H. fields H. by cbn. Qed.

Lemma WorkoutTemplate_fields (p : WorkoutTemplate.payload) (t : WorkoutTemplate.t) :
  WorkoutTemplate.validate p = Valid t ->
  required "title" unconstrained (WorkoutTemplate.raw_title p)
  = Valid (WorkoutTemplate.title t)
  ∧ optional "description" None unconstrained (WorkoutTemplate.raw_description p)
    = Valid (WorkoutTemplate.description t)
  ∧ list_of Exercise.validate "exercises" (defaulted "exercises" [] unconstrained)
      (WorkoutTemplate.raw_exercises p) = Valid (WorkoutTemplate.exercises t)
  ∧ optional "level" None unconstrained (WorkoutTemplate.raw_level p)
    = Valid (WorkoutTemplate.level t).
Proof. unfold WorkoutTemplate.validate. intros H. fields H. by cbn. Qed.

Lemma WorkoutSession_fields (p : WorkoutSession.payload) (s : WorkoutSession.t) :
  WorkoutSession.validate p = Valid s ->
  required "user_id" unconstrained (WorkoutSession.raw_user_id p)
  = Valid (WorkoutSession.user_id s)
  ∧ required "session_date" unconstrained (WorkoutSession.raw_session_date p)
    = Valid (WorkoutSession.session_date s)
  ∧ required "title" unconstrained (WorkoutSession.raw_title p)
    = Valid (WorkoutSession.title s)
  ∧ list_of Exercise.validate "exercises" (defaulted "exercises" [] unconstrained)
      (WorkoutSession.raw_exercises p) = Valid (WorkoutSession.exercises s)
  ∧ optional "notes" None unconstrained (WorkoutSession.raw_notes p)
    = Valid (WorkoutSession.notes s).
Proof. unfold WorkoutSession.validate. intros H. fields H. by cbn. Qed.

Lemma FoodLog_fields (p : FoodLog.payload) (l : FoodLog.t) :
  FoodLog.validate p = Valid l ->
  required "user_id" unconstrained (FoodLog.raw_user_id p) = Valid (FoodLog.user_id l)
  ∧ required "log_date" unconstrained (FoodLog.raw_log_date p) = Valid (FoodLog.log_date l)
  ∧ optional "meal" (Some "unspecified") unconstrained (FoodLog.raw_meal p)
    = Valid (FoodLog.meal l)
  ∧ model_of FoodItem.validate "item" (required "item" unconstrained) (FoodLog.raw_item p)
    = Valid (FoodLog.item l)
  ∧ defaulted "quantity" 1%float (bounds [ge 0x1.999999999999ap-4%float])
      (FoodLog.raw_quantity p) = Valid (FoodLog.quantity l).
Proof. unfold FoodLog.validate. intros H. fields H. by cbn. Qed.

Lemma Exercise_validated_sound (p : Exercise.payload) (e : Exercise.t) :
  Exercise.validate p = Valid e -> Exercise_sound e.
Proof.
  intros (_ & [_ Hs]%required_Valid_inv & [_ Hr]%required_Valid_inv
          & [Hw Hwc]%optional_Valid_inv & _)%Exercise_fields.
  split; [by apply bounds_range_nil|]. split; [by apply bounds_range_nil|].
  by apply (carried_non_negative None (Exercise.raw_weight p)).
Qed.

Lemma exercises_sound (ps : raw (list Exercise.payload)) (es : list Exercise.t) :
  carries_items Exercise.validate ps es -> Forall Exercise_sound es.
Proof.
  destruct ps as [| | |l]; cbn [carries_items]; try done.
  - intros ->. constructor.
  - induction 1 as [|p e l es Hpe _ IH]; constructor; [|done].
    by apply (Exercise_validated_sound p).
Qed.

Lemma FoodItem_validated_sound (p : FoodItem.payload) (i : FoodItem.t) :
  FoodItem.validate p = Valid i -> FoodItem_sound i.
Proof.
  intros (_ & _ & _ & [_ Hc]%required_Valid_inv & [Hp Hpc]%optional_Valid_inv
          & [Hcb Hcbc]%optional_Valid_inv & [Hf Hfc]%optional_Valid_inv & _)%FoodItem_fields.
  assert (Hzero : non_negative (Some 0%float)) by by intros w [= <-].
  split; [by apply floor_nil|]. split; [|split].
  - by apply (carried_non_negative (Some 0%float) (FoodItem.raw_protein p)).
  - by apply (carried_non_negative (Some 0%float) (FoodItem.raw_carbs p)).
  - by apply (carried_non_negative (Some 0%float) (FoodItem.raw_fat p)).
Qed.

(** X12. Every entity that validation produces is within the bounds of
    [schemas.py], defaults included: sets in 1..20, reps in 1..100 and no
    negative weight for an exercise, also for each exercise of a template
    and of a session; no negative calories or macro for a food item, also
    for the item of a log; and a quantity of at least 0.1 for a log. *)
Theorem validated_within_bounds :
  (∀ p e, Exercise.validate p = Valid e -> Exercise_sound e)
  ∧ (∀ p t, WorkoutTemplate.validate p = Valid t ->
       Forall Exercise_sound (WorkoutTemplate.exercises t))
  ∧ (∀ p s, WorkoutSession.validate p = Valid s ->
       Forall Exercise_sound (WorkoutSession.exercises s))
  ∧ (∀ p i, FoodItem.validate p = Valid i -> FoodItem_sound i)
  ∧ (∀ p l, FoodLog.validate p = Valid l ->
       FoodItem_sound (FoodLog.item l)
       ∧ at_least 0x1.999999999999ap-4 (FoodLog.quantity l)).
Proof.
  split; [apply Exercise_validated_sound|]. split; [|split; [|split]].
  - intros p t (_ & _ & Hex%list_of_Valid_inv & _)%WorkoutTemplate_fields.
    by apply (exercises_sound (WorkoutTemplate.raw_exercises p)).
  - intros p s (_ & _ & _ & Hex%list_of_Valid_inv & _)%WorkoutSession_fields.
    by apply (exercises_sound (WorkoutSession.raw_exercises p)).
  - apply FoodItem_validated_sound.
  - intros p l (_ & _ & _ & (q & _ & Hq)%model_of_Valid_inv
                & [Hqty Hcheck]%defaulted_Valid_inv)%FoodLog_fields.
    split; [by apply (FoodItem_validated_sound q)|].
    destruct (FoodLog.raw_quantity p) as [| | |w]; cbn in Hqty; try done.
    + by rewrite Hqty.
    + rewrite Hqty. by apply floor_nil, Hcheck.
Qed.

(** X14. The nested models are validated as wholes and in order: the
    exercises of a validated template or session are the validations of the
    exercises sent, one for one and in their order, and none when the field
    is left out; the item of a validated log is the validation of the item
    sent; its meal is ["unspecified"] and its quantity 1.0 when these are
    left out, and a log whose quantity is sent as [null] does not
    validate. *)
Theorem validated_nested_models :
  (∀ p t, WorkoutTemplate.validate p = Valid t ->
     WorkoutTemplate.raw_title p = Given (WorkoutTemplate.title t)
     ∧ carries_items Exercise.validate (WorkoutTemplate.raw_exercises p)
         (WorkoutTemplate.exercises t))
  ∧ (∀ p s, WorkoutSession.validate p = Valid s ->
     WorkoutSession.raw_user_id p = Given (WorkoutSession.user_id s)
     ∧ WorkoutSession.raw_session_date p = Given (WorkoutSession.session_date s)
     ∧ carries_items Exercise.validate (WorkoutSession.raw_exercises p)
         (WorkoutSession.exercises s))
  ∧ (∀ p l, FoodLog.validate p = Valid l ->
     FoodLog.raw_user_id p = Given (FoodLog.user_id l)
     ∧ FoodLog.raw_log_date p = Given (FoodLog.log_date l)
     ∧ carries_optional (Some "unspecified") (FoodLog.raw_meal p) (FoodLog.meal l)
     ∧ (∃ q, FoodLog.raw_item p = Given q ∧ FoodItem.validate q = Valid (FoodLog.item l))
     ∧ carries_defaulted 1%float (FoodLog.raw_quantity p) (FoodLog.quantity l)).
Proof.
  split; [|split].
  - intros p t ([Ht _]%required_Valid_inv & _ & Hex%list_of_Valid_inv & _)%WorkoutTemplate_fields.
    done.
  - intros p s ([Hu _]%required_Valid_inv & [Hd _]%required_Valid_inv & _
                & Hex%list_of_Valid_inv & _)%WorkoutSession_fields.
    done.
  - intros p l ([Hu _]%required_Valid_inv & [Hd _]%required_Valid_inv
                & [Hm _]%optional_Valid_inv & Hitem%model_of_Valid_inv
                & [Hq _]%defaulted_Valid_inv)%FoodLog_fields.
    done.
Qed.

Lemma validated_within_bounds_witness :
  ∃ l, FoodLog.validate tenth_log = Valid l
       ∧ FoodItem_sound (FoodLog.item l)
       ∧ at_least 0x1.999999999999ap-4 (FoodLog.quantity l).
Proof.
  destruct validated_within_bounds as (_ & _ & _ & _ & Hlog).
  destruct (FoodLog.validate tenth_log) as [l|es] eqn:Hl; [|vm_compute in Hl; discriminate Hl].
  exists l. split; [done|]. by apply (Hlog tenth_log).
Defined.

Lemma validated_nested_models_witness :
  (∃ t, WorkoutTemplate.validate bare_template = Valid t ∧ WorkoutTemplate.exercises t = [])
  ∧ (∃ t, WorkoutTemplate.validate two_lifts = Valid t
          ∧ length (WorkoutTemplate.exercises t) = 2%nat).
Proof.
  destruct validated_nested_models as (Htemplate & _). split.
  - destruct (WorkoutTemplate.validate bare_template) as [t|es] eqn:Ht;
      [|vm_compute in Ht; discriminate Ht].
    destruct (Htemplate bare_template t Ht) as [_ Hex]. by exists t.
  - destruct (WorkoutTemplate.validate two_lifts) as [t|es] eqn:Ht;
      [|vm_compute in Ht; discriminate Ht].
    destruct (Htemplate two_lifts t Ht) as [_ Hex]. exists t. split; [done|].
    cbn in Hex. apply Forall2_length in Hex. by rewrite <- Hex.
Defined.

(** ** Records the nutrition endpoints cannot read *)

Section Malformed.

Variable float_of_str : string -> option float.

(** X15. Only dictionaries are read. A response body that is not a
    dictionary makes both endpoints answer a server error. For
    [search_food], a product that is not a dictionary, or a product
    dictionary whose [nutriments] entry is present but not a dictionary
    ([null] included), makes the whole answer a server error when the
    products before it normalise. For [food_by_barcode], a product that is
    truthy but not a dictionary, or a product dictionary with such a
    [nutriments] entry, gives a server error and not an item of zeros. *)
Theorem malformed_records_fail (p : dict) (v : value) :
  is_dict v = false ->
  search_food float_of_str (Return v) = ServerError AttributeError
  ∧ food_by_barcode float_of_str (Return v) = ServerError AttributeError
  ∧ (∀ data ps i,
       data !! "products" = Some (VList ps) ->
       ps !! i = Some v ∨ (ps !! i = Some (VDict p) ∧ p !! "nutriments" = Some v) ->
       (∀ j q, (j < i)%nat -> ps !! j = Some q ->
          ∃ item, normalize float_of_str q = Return item) ->
       search_food float_of_str (Return (VDict data)) = ServerError AttributeError)
  ∧ (∀ data,
       (data !! "product" = Some v ∧ truthy v = true)
       ∨ (data !! "product" = Some (VDict p) ∧ p !! "nutriments" = Some v) ->
       food_by_barcode float_of_str (Return (VDict data)) = ServerError AttributeError).
Proof.
  intros Hv.
  assert (Hrecord : normalize float_of_str v = Raise AttributeError)
    by (destruct v; done).
  assert (Hp : p !! "nutriments" = Some v ->
               normalize float_of_str (VDict p) = Raise AttributeError).
  { intros Hn. unfold normalize. cbn -[py_float py_or float_or_zero]. rewrite Hn.
    cbn -[py_float py_or float_or_zero]. by destruct v. }
  split; [by destruct v|]. split; [by destruct v|]. split.
  - intros data ps i Hps Hi Hbefore. unfold search_food. cbn -[normalize singletonM].
    rewrite Hps. cbn -[normalize singletonM].
    destruct Hi as [Hi|[Hi Hn]].
    + by rewrite (for_each_Raise _ ps i v AttributeError Hi Hrecord Hbefore).
    + by rewrite (for_each_Raise _ ps i (VDict p) AttributeError Hi (Hp Hn) Hbefore).
  - intros data [[Hdata Ht]|[Hdata Hn]]; unfold food_by_barcode; cbn -[normalize];
      rewrite Hdata; cbn -[normalize]; unfold py_or.
    + rewrite Ht. by rewrite Hrecord.
    + cbn [truthy]. rewrite bool_decide_eq_false_2; [cbn [negb]; by rewrite (Hp Hn)|].
      intros ->. by rewrite lookup_empty in Hn.
Qed.

End Malformed.

Lemma malformed_records_fail_witness :
  food_by_barcode sample_float_of_str (Return (VDict {[ "product" := VDict null_nutriments ]}))
  = ServerError AttributeError.
Proof.
  destruct (malformed_records_fail sample_float_of_str null_nutriments VNone eq_refl)
    as (_ & _ & _ & Hbarcode).
  apply Hbarcode. right. split; reflexivity.
Defined.
